(** * JSON test-case normalizer: a shallow embedding of
      [locuststudy/test1.py] (class [JSONToExcelTool]) *)

From Stdlib Require Import ZArith List String Ascii Bool Lia.
From Stdlib Require Import DecimalString SpecFloat.
Import ListNotations.
Local Open Scope list_scope.
Local Open Scope string_scope.
Set Warnings "-register-all".

(** ** Python values as produced by [json.loads] *)

(** [json.loads] returns [None], [bool], [int], [float], [str], [list] or
    an insertion-ordered [dict] with string keys.  The dict is kept as an
    association list because [values()] and [items()] iterate in order. *)
Inductive json : Type :=
| JNull
| JBool (b : bool)
| JInt (z : Z)
| JFloat (f : spec_float)
| JStr (s : string)
| JList (xs : list json)
| JDict (kvs : list (string * json)).

Definition pydict : Type := list (string * json).

(** [key in d] *)
Definition dict_contains (k : string) (d : pydict) : bool :=
  existsb (fun kv => String.eqb (fst kv) k) d.

(** [d[key]] / [d.get(key)]: keys of a Python dict are unique, so the first
    binding is the binding. *)
Fixpoint dict_lookup (k : string) (d : pydict) : option json :=
  match d with
  | [] => None
  | (k', v) :: rest => if String.eqb k' k then Some v else dict_lookup k rest
  end.

(** [d.get(key, default)] *)
Definition dict_get (d : pydict) (k : string) (default : json) : json :=
  match dict_lookup k d with
  | Some v => v
  | None => default
  end.

(** ** Extraction *)

(** [_is_test_case]: [any(indicator in obj for indicator in ...)] *)
Definition test_case_indicators : list string :=
  ["id"; "case_id"; "title"; "name"; "steps"].

Definition _is_test_case (obj : pydict) : bool :=
  existsb (fun indicator => dict_contains indicator obj) test_case_indicators.

(** [_deep_search_test_cases] *)
Fixpoint _deep_search_test_cases (data : json) : list json :=
  match data with
  | JDict kvs =>
      if _is_test_case kvs then [data]
      else flat_map (fun kv => _deep_search_test_cases (snd kv)) kvs
  | JList xs => flat_map _deep_search_test_cases xs
  | _ => []
  end.

(** The loop over [possible_keys]; [test_cases] starts as [[]] and keeps the
    value of the first key that is present and bound to a list ([break]). *)
Definition possible_keys : list string :=
  ["test_cases"; "cases"; "testCases"; "testcases"; "items"].

Fixpoint scan_possible_keys (keys : list string) (data : pydict) : list json :=
  match keys with
  | [] => []
  | key :: rest =>
      match dict_lookup key data with
      | Some (JList xs) => xs
      | _ => scan_possible_keys rest data
      end
  end.

(** [not test_cases] for a list: true exactly on the empty list. *)
Definition py_not_list (l : list json) : bool :=
  match l with
  | [] => true
  | _ :: _ => false
  end.

(** [_extract_test_cases] *)
Definition _extract_test_cases (data : json) : list json :=
  match data with
  | JList xs => xs
  | JDict kvs =>
      let test_cases := scan_possible_keys possible_keys kvs in
      if py_not_list test_cases then _deep_search_test_cases data
      else test_cases
  | _ => []
  end.

(** The branch of [_extract_test_cases] that produces its result. *)
Inductive branch : Type :=
| BareSequence
| KeyedSequence
| DeepSearch
| NoContainer.

Definition extraction_branch (data : json) : branch :=
  match data with
  | JList _ => BareSequence
  | JDict kvs =>
      if py_not_list (scan_possible_keys possible_keys kvs) then DeepSearch
      else KeyedSequence
  | _ => NoContainer
  end.

(** ** Text formatting *)

Definition newline : string := String "010" EmptyString.

Definition str_of_nat (n : nat) : string :=
  NilZero.string_of_uint (Nat.to_uint n).

Definition str_of_int (z : Z) : string :=
  NilZero.string_of_int (Z.to_int z).

(** What Python's built-ins do with text that the tool does not decide
    itself: [repr] of a float and [repr] of a str (quoting and escapes). *)
Class Builtins : Type := {
  float_repr : spec_float -> string;
  str_repr : string -> string
}.

Section Formatting.
Context {B : Builtins}.

(** [repr(v)] *)
Fixpoint py_repr (v : json) : string :=
  match v with
  | JNull => "None"
  | JBool true => "True"
  | JBool false => "False"
  | JInt z => str_of_int z
  | JFloat f => float_repr f
  | JStr s => str_repr s
  | JList xs => "[" ++ String.concat ", " (map py_repr xs) ++ "]"
  | JDict kvs =>
      "{" ++ String.concat ", "
               (map (fun kv => str_repr (fst kv) ++ ": " ++ py_repr (snd kv)) kvs)
          ++ "}"
  end.

(** [str(v)], which is what a replacement field [{v}] of an f-string
    inserts for these types. *)
Definition py_str (v : json) : string :=
  match v with
  | JStr s => s
  | _ => py_repr v
  end.

(** [f"{i}. {x}"] *)
Definition numbered (i : nat) (x : json) : string :=
  str_of_nat i ++ ". " ++ py_str x.

(** The body of the [for i, step in enumerate(steps, 1)] loop: the lines
    appended for the steps from index [i] on. *)
Fixpoint step_lines (i : nat) (steps : list json) : list string :=
  match steps with
  | [] => []
  | step :: rest =>
      match step with
      | JDict d =>
          let action := dict_get d "action" (dict_get d "step" (JStr "")) in
          numbered i action :: step_lines (S i) rest
      | JStr _ => numbered i step :: step_lines (S i) rest
      | _ => step_lines (S i) rest
      end
  end.

(** [_format_steps] *)
Definition _format_steps (steps : json) : string :=
  match steps with
  | JList xs => String.concat newline (step_lines 1 xs)
  | JStr s => s
  | _ => ""
  end.

(** [[f"{i + 1}. {exp}" for i, exp in enumerate(expected)]] from index [i]. *)
Fixpoint expected_lines (i : nat) (expected : list json) : list string :=
  match expected with
  | [] => []
  | exp :: rest => numbered (i + 1) exp :: expected_lines (S i) rest
  end.

(** [_format_expected] *)
Definition _format_expected (expected : json) : string :=
  match expected with
  | JList xs => String.concat newline (expected_lines 0 xs)
  | JStr s => s
  | _ => ""
  end.

(** [_format_test_data] *)
Definition _format_test_data (test_data : json) : string :=
  match test_data with
  | JDict d =>
      String.concat newline
        (map (fun kv => fst kv ++ ": " ++ py_str (snd kv)) d)
  | JStr s => s
  | _ => ""
  end.
End Formatting.

(** ** Exceptions *)

(** The exceptions the tool can meet; all are subclasses of [Exception].
    The string is the message, which is what [str(e)] returns. *)
Inductive exn : Type :=
| AttributeError (msg : string)
| JSONDecodeError (msg : string)
| OSError (msg : string)
| LibraryError (msg : string).

Definition str_exn (e : exn) : string :=
  match e with
  | AttributeError m | JSONDecodeError m | OSError m | LibraryError m => m
  end.

Inductive result (A : Type) : Type :=
| Ok (a : A)
| Raise (e : exn).
Arguments Ok {A} a.
Arguments Raise {A} e.

Definition bind {A B : Type} (m : result A) (k : A -> result B) : result B :=
  match m with
  | Ok a => k a
  | Raise e => Raise e
  end.

Notation "x <- m ;; k" := (bind m (fun x => k))
  (at level 61, m at next level, right associativity).

(** [type(v).__name__] *)
Definition type_name (v : json) : string :=
  match v with
  | JNull => "NoneType"
  | JBool _ => "bool"
  | JInt _ => "int"
  | JFloat _ => "float"
  | JStr _ => "str"
  | JList _ => "list"
  | JDict _ => "dict"
  end.

(** What [v.get] raises when [v] is not a dict. *)
Definition no_get (v : json) : exn :=
  AttributeError ("'" ++ type_name v ++ "' object has no attribute 'get'").

(** ** Row projection *)

(** A row is the dict literal of [_prepare_test_case_row], in the order in
    which its keys are written. *)
Definition row : Type := list (string * json).

Definition columns : list string :=
  ["用例ID"; "用例名称"; "模块"; "优先级"; "前置条件"; "测试步骤";
   "预期结果"; "测试数据"; "状态"; "创建人"; "创建时间"; "备注"].

Definition not_executed : string := "未执行".

Section Projection.
Context {B : Builtins}.

(** [_prepare_test_case_row]; the first [test_case.get] raises when the
    record is not a dict. *)
Definition _prepare_test_case_row (test_case : json) : result row :=
  match test_case with
  | JDict tc =>
      Ok [ ("用例ID", dict_get tc "id" (dict_get tc "case_id" (JStr "")));
           ("用例名称", dict_get tc "title" (dict_get tc "name" (JStr "")));
           ("模块", dict_get tc "module" (dict_get tc "category" (JStr "")));
           ("优先级", dict_get tc "priority" (JStr ""));
           ("前置条件", dict_get tc "preconditions" (JStr ""));
           ("测试步骤", JStr (_format_steps (dict_get tc "steps" (JList []))));
           ("预期结果", JStr (_format_expected (dict_get tc "expected" (JStr ""))));
           ("测试数据", JStr (_format_test_data (dict_get tc "test_data" (JDict []))));
           ("状态", dict_get tc "status" (JStr not_executed));
           ("创建人", dict_get tc "author" (JStr ""));
           ("创建时间", dict_get tc "created_date" (JStr ""));
           ("备注", dict_get tc "remarks" (JStr "")) ]
  | other => Raise (no_get other)
  end.

(** [for case in test_cases: rows.append(self._prepare_test_case_row(case))] *)
Fixpoint prepare_rows (test_cases : list json) : result (list row) :=
  match test_cases with
  | [] => Ok []
  | case :: rest =>
      r <- _prepare_test_case_row case ;;
      rs <- prepare_rows rest ;;
      Ok (r :: rs)
  end.
End Projection.

(** ** The entry point *)

(** The keyword arguments [run] reads, each absent or given. *)
Record kwargs : Type := {
  kw_output_format : option string;
  kw_include_styling : option bool;
  kw_filename : option string
}.

(** What the tool hands to the file system, the JSON parser, pandas,
    openpyxl and the clock.  Each call into a library can raise. *)
Class Collaborators : Type := {
  os_path_exists : string -> bool;
  (** [with open(path) as f: json.load(f)] *)
  json_load_file : string -> result json;
  json_loads : string -> result json;
  (** [DataFrame(rows)] written by [ExcelWriter], styled when asked,
      then base64-encoded *)
  excel_base64 : list row -> bool -> result string;
  (** [_generate_preview(df)] *)
  excel_preview : list row -> result string;
  (** [df.to_csv(index=False, encoding='utf-8-sig')] *)
  to_csv : list row -> result string;
  (** [df.head().to_string()] *)
  csv_preview : list row -> result string;
  (** [datetime.now().isoformat()] *)
  now_isoformat : string
}.

Section Run.
Context {B : Builtins} {C : Collaborators}.

(** [_parse_json_input] *)
Definition _parse_json_input (json_input : string) : result json :=
  if os_path_exists json_input then json_load_file json_input
  else json_loads json_input.

(** [_generate_excel] *)
Definition _generate_excel (test_cases : list json) (filename : string)
    (include_styling : bool) : result pydict :=
  rows <- prepare_rows test_cases ;;
  content <- excel_base64 rows include_styling ;;
  preview <- excel_preview rows ;;
  Ok [ ("file_content", JStr content);
       ("filename", JStr (filename ++ ".xlsx"));
       ("file_type",
        JStr "application/vnd.openxmlformats-officedocument.spreadsheetml.sheet");
       ("download_url", JNull);
       ("preview", JStr preview) ].

(** [_generate_csv] *)
Definition _generate_csv (test_cases : list json) (filename : string)
    : result pydict :=
  rows <- prepare_rows test_cases ;;
  csv_data <- to_csv rows ;;
  preview <- csv_preview rows ;;
  Ok [ ("file_content", JStr csv_data);
       ("filename", JStr (filename ++ ".csv"));
       ("file_type", JStr "text/csv");
       ("preview", JStr preview) ].

Definition get_default {A : Type} (o : option A) (default : A) : A :=
  match o with
  | Some a => a
  | None => default
  end.

(** The body of the [try] block of [run]. *)
Definition run_try (json_input : string) (kw : kwargs) : result pydict :=
  let output_format := get_default (kw_output_format kw) "excel" in
  let include_styling := get_default (kw_include_styling kw) true in
  let filename := get_default (kw_filename kw) "test_cases" in
  data <- _parse_json_input json_input ;;
  let test_cases := _extract_test_cases data in
  result <- (if String.eqb output_format "excel"
             then _generate_excel test_cases filename include_styling
             else _generate_csv test_cases filename) ;;
  let count := JInt (Z.of_nat (List.length test_cases)) in
  Ok [ ("success", JBool true);
       ("data", JDict result);
       ("message", JStr ("成功转换 " ++ py_str count ++ " 个测试用例"));
       ("metadata", JDict [ ("test_case_count", count);
                            ("output_format", JStr output_format);
                            ("generated_at", JStr now_isoformat) ]) ].

(** [run]: the [try] block, and the [except Exception as e] handler. *)
Definition run (json_input : string) (kw : kwargs) : pydict :=
  match run_try json_input kw with
  | Ok r => r
  | Raise e =>
      [ ("success", JBool false);
        ("error", JStr (str_exn e));
        ("message", JStr "转换失败") ]
  end.
End Run.

(** ** Vocabulary of the statements *)

(** An object that the deep search classifies as a record. *)
Definition is_record (d : json) : Prop :=
  exists kvs, d = JDict kvs /\ _is_test_case kvs = true.

(** [child d c]: [c] is a value of the object [d], which is not a record,
    or an element of the sequence [d].  These are the edges the deep search
    follows. *)
Inductive child : json -> json -> Prop :=
| child_value (kvs : pydict) (k : string) (v : json) :
    _is_test_case kvs = false -> In (k, v) kvs -> child (JDict kvs) v
| child_element (xs : list json) (x : json) :
    In x xs -> child (JList xs) x.

(** [reaches d t]: [t] is [d] or lies under it through wrappers that are
    not records and through sequence elements, at any depth. *)
Inductive reaches : json -> json -> Prop :=
| reaches_here (d : json) : reaches d d
| reaches_below (d c t : json) : child d c -> reaches c t -> reaches d t.

(** The value of a column of a row. *)
Definition column (label : string) (r : row) : option json :=
  dict_lookup label r.

Definition is_dict (v : json) : bool :=
  match v with
  | JDict _ => true
  | _ => false
  end.

Definition is_str (v : json) : bool :=
  match v with
  | JStr _ => true
  | _ => false
  end.

(** The steps of a list with their positions, counted from [i]:
    [enumerate(steps, i)]. *)
Fixpoint enumerate (i : nat) (xs : list json) : list (nat * json) :=
  match xs with
  | [] => []
  | x :: rest => (i, x) :: enumerate (S i) rest
  end.

Section StepText.
Context {B : Builtins}.

(** What one step contributes to its line. *)
Definition step_text (step : json) : json :=
  match step with
  | JDict d =>
      match dict_lookup "action" d with
      | Some action => action
      | None =>
          match dict_lookup "step" d with
          | Some v => v
          | None => JStr ""
          end
      end
  | other => other
  end.

Definition step_line (p : nat * json) : string :=
  numbered (fst p) (step_text (snd p)).
End StepText.

(** The row policy as the specification words it: the first of the
    alternatives that is present and not empty, else the fallback. *)
Definition is_empty_text (v : json) : bool :=
  match v with
  | JStr EmptyString => true
  | _ => false
  end.

Fixpoint first_non_empty (tc : pydict) (fields : list string) (fallback : json)
    : json :=
  match fields with
  | [] => fallback
  | f :: rest =>
      match dict_lookup f tc with
      | Some v => if is_empty_text v then first_non_empty tc rest fallback else v
      | None => first_non_empty tc rest fallback
      end
  end.

(** The policy the code follows: the first of the alternatives that is
    present, whatever its value, else the fallback. *)
Fixpoint first_present (tc : pydict) (fields : list string) (fallback : json)
    : json :=
  match fields with
  | [] => fallback
  | f :: rest =>
      match dict_lookup f tc with
      | Some v => v
      | None => first_present tc rest fallback
      end
  end.

(** The index of the first key of [keys] bound to a list in [data]. *)
Definition bound_to_list (data : pydict) (key : string) : bool :=
  match dict_lookup key data with
  | Some (JList _) => true
  | _ => false
  end.

(** ** A closed instance of the collaborators

    Used to run the tool on examples.  The reader accepts the JSON fragment
    without escapes, fractions and exponents and raises on everything else;
    the writers are plain stand-ins for pandas and openpyxl. *)
Module Demo.

Definition dquote : ascii := ascii_of_nat 34.
Definition backslash : ascii := ascii_of_nat 92.

Definition is_ws (c : ascii) : bool :=
  let n := nat_of_ascii c in
  Nat.eqb n 32 || Nat.eqb n 9 || Nat.eqb n 10 || Nat.eqb n 13.

Definition is_digit (c : ascii) : bool :=
  let n := nat_of_ascii c in
  Nat.leb 48 n && Nat.leb n 57.

Fixpoint skip_ws (s : string) : string :=
  match s with
  | String c r => if is_ws c then skip_ws r else s
  | EmptyString => s
  end.

Fixpoint strip_prefix (w s : string) : option string :=
  match w, s with
  | EmptyString, _ => Some s
  | String a w', String b s' => if Ascii.eqb a b then strip_prefix w' s' else None
  | String _ _, EmptyString => None
  end.

Fixpoint read_digits (s : string) : list nat * string :=
  match s with
  | String c r =>
      if is_digit c
      then let (ds, r') := read_digits r in (nat_of_ascii c - 48 :: ds, r')
      else ([], s)
  | EmptyString => ([], s)
  end.

Definition digits_value (ds : list nat) : Z :=
  fold_left (fun acc d => (10 * acc + Z.of_nat d)%Z) ds 0%Z.

Definition read_unsigned (s : string) : option (Z * string) :=
  match read_digits s with
  | ([], _) => None
  | (0 :: _ :: _, _) => None
  | (ds, r) => Some (digits_value ds, r)
  end.

Definition read_int (s : string) : option (json * string) :=
  match s with
  | String c r =>
      if Ascii.eqb c "-"%char
      then match read_unsigned r with
           | Some (z, r') => Some (JInt (- z), r')
           | None => None
           end
      else match read_unsigned s with
           | Some (z, r') => Some (JInt z, r')
           | None => None
           end
  | EmptyString => None
  end.

(** The characters of a string literal, after its opening quote. *)
Fixpoint read_chars (s : string) : option (string * string) :=
  match s with
  | EmptyString => None
  | String c r =>
      if Ascii.eqb c dquote then Some (EmptyString, r)
      else if Ascii.eqb c backslash then None
      else if Nat.ltb (nat_of_ascii c) 32 then None
      else match read_chars r with
           | Some (t, r') => Some (String c t, r')
           | None => None
           end
  end.

(** [d[k] = v] on an insertion-ordered dict. *)
Fixpoint dict_set (k : string) (v : json) (d : pydict) : pydict :=
  match d with
  | [] => [(k, v)]
  | (k', v') :: rest =>
      if String.eqb k' k then (k', v) :: rest else (k', v') :: dict_set k v rest
  end.

Definition keyword (w : string) (v : json) (s : string) : option (json * string) :=
  match strip_prefix w s with
  | Some r => Some (v, r)
  | None => None
  end.

Fixpoint read_value (fuel : nat) (s : string) {struct fuel}
    : option (json * string) :=
  match fuel with
  | O => None
  | S n =>
      match skip_ws s with
      | EmptyString => None
      | String c r =>
          if Ascii.eqb c "["%char then
            match skip_ws r with
            | String c' r' =>
                if Ascii.eqb c' "]"%char then Some (JList [], r')
                else match read_elements n r with
                     | Some (xs, r2) => Some (JList xs, r2)
                     | None => None
                     end
            | EmptyString => None
            end
          else if Ascii.eqb c "{"%char then
            match skip_ws r with
            | String c' r' =>
                if Ascii.eqb c' "}"%char then Some (JDict [], r')
                else match read_members n [] r with
                     | Some (kvs, r2) => Some (JDict kvs, r2)
                     | None => None
                     end
            | EmptyString => None
            end
          else if Ascii.eqb c dquote then
            match read_chars r with
            | Some (t, r') => Some (JStr t, r')
            | None => None
            end
          else if Ascii.eqb c "n"%char then keyword "ull" JNull r
          else if Ascii.eqb c "t"%char then keyword "rue" (JBool true) r
          else if Ascii.eqb c "f"%char then keyword "alse" (JBool false) r
          else read_int (String c r)
      end
  end

with read_elements (fuel : nat) (s : string) {struct fuel}
    : option (list json * string) :=
  match fuel with
  | O => None
  | S n =>
      match read_value n s with
      | Some (x, r) =>
          match skip_ws r with
          | String c r' =>
              if Ascii.eqb c ","%char then
                match read_elements n r' with
                | Some (xs, r2) => Some (x :: xs, r2)
                | None => None
                end
              else if Ascii.eqb c "]"%char then Some ([x], r')
              else None
          | EmptyString => None
          end
      | None => None
      end
  end

with read_members (fuel : nat) (acc : pydict) (s : string) {struct fuel}
    : option (pydict * string) :=
  match fuel with
  | O => None
  | S n =>
      match skip_ws s with
      | String q r =>
          if Ascii.eqb q dquote then
            match read_chars r with
            | Some (k, r1) =>
                match skip_ws r1 with
                | String c r2 =>
                    if Ascii.eqb c ":"%char then
                      match read_value n r2 with
                      | Some (v, r3) =>
                          match skip_ws r3 with
                          | String c' r4 =>
                              if Ascii.eqb c' ","%char
                              then read_members n (dict_set k v acc) r4
                              else if Ascii.eqb c' "}"%char
                              then Some (dict_set k v acc, r4)
                              else None
                          | EmptyString => None
                          end
                      | None => None
                      end
                    else None
                | EmptyString => None
                end
            | None => None
            end
          else None
      | EmptyString => None
      end
  end.

Definition loads (s : string) : result json :=
  match read_value (2 * String.length s + 2) s with
  | Some (v, r) =>
      match skip_ws r with
      | EmptyString => Ok v
      | String _ _ => Raise (JSONDecodeError "Extra data")
      end
  | None => Raise (JSONDecodeError "Expecting value")
  end.

(** [repr] of a str that has no quote, backslash or control character;
    [repr] of a float that is zero, infinite or not a number. *)
Definition builtins : Builtins := {|
  float_repr := fun f =>
    match f with
    | S754_zero false => "0.0"
    | S754_zero true => "-0.0"
    | S754_infinity false => "inf"
    | S754_infinity true => "-inf"
    | S754_nan => "nan"
    | S754_finite sign m e =>
        (if sign then "-" else "") ++ str_of_int (Z.pos m) ++ "*2**" ++ str_of_int e
    end;
  str_repr := fun s => "'" ++ s ++ "'"
|}.

Definition cell_text (r : row) (label : string) : string :=
  match dict_lookup label r with
  | Some v => @py_str builtins v
  | None => ""
  end.

Definition csv_text (rows : list row) : string :=
  String.concat newline
    (String.concat "," columns
     :: map (fun r => String.concat "," (map (cell_text r) columns)) rows).

Definition summary (rows : list row) : string :=
  "rows: " ++ str_of_nat (List.length rows).

(** No file exists; the writers never raise. *)
Definition collaborators : Collaborators := {|
  os_path_exists := fun _ => false;
  json_load_file := fun path =>
    Raise (OSError ("[Errno 2] No such file or directory: '" ++ path ++ "'"));
  json_loads := loads;
  excel_base64 := fun rows _ => Ok (csv_text rows);
  excel_preview := fun rows => Ok (summary rows);
  to_csv := fun rows => Ok (csv_text rows);
  csv_preview := fun rows => Ok (summary rows);
  now_isoformat := "2024-01-01T00:00:00"
|}.

(** A writer that fails, to exercise the handler of [run]. *)
Definition failing_writer : Collaborators := {|
  os_path_exists := fun _ => false;
  json_load_file := fun path => Raise (OSError path);
  json_loads := loads;
  excel_base64 := fun _ _ => Raise (LibraryError "cannot be used in worksheets");
  excel_preview := fun rows => Ok (summary rows);
  to_csv := fun _ => Raise (LibraryError "cannot be used in worksheets");
  csv_preview := fun rows => Ok (summary rows);
  now_isoformat := "2024-01-01T00:00:00"
|}.

End Demo.


(** ** Documents and records used as examples *)

Definition no_kwargs : kwargs :=
  {| kw_output_format := None; kw_include_styling := None; kw_filename := None |}.

Definition csv_kwargs : kwargs :=
  {| kw_output_format := Some "csv"; kw_include_styling := None;
     kw_filename := None |}.

(** [{"name": "Suite A", "test_cases": []}] *)
Definition doc_empty_test_cases : pydict :=
  [("name", JStr "Suite A"); ("test_cases", JList [])].

(** [{"test_cases": [{"title": "Login"}], "id": "TC1", "cases": [1]}] *)
Definition doc_test_cases_and_siblings : pydict :=
  [("test_cases", JList [JDict [("title", JStr "Login")]]);
   ("id", JStr "TC1"); ("cases", JList [JInt 1])].

(** [{"test_cases": [1], "cases": [2], "items": [3]}] *)
Definition doc_three_keys : pydict :=
  [("test_cases", JList [JInt 1]); ("cases", JList [JInt 2]);
   ("items", JList [JInt 3])].

(** [{"cases": [{"id": 1}], "items": [{"id": 2}], "owner": "qa"}] *)
Definition doc_cases_items : pydict :=
  [("cases", JList [JDict [("id", JInt 1)]]);
   ("items", JList [JDict [("id", JInt 2)]]);
   ("owner", JStr "qa")].

(** [{"id": "", "case_id": "TC9", "status": ""}] *)
Definition record_empty_id : pydict :=
  [("id", JStr ""); ("case_id", JStr "TC9"); ("status", JStr "")].

(** [{"a": {"b": {"c": {"id": 7}}}}] *)
Definition doc_three_deep : pydict :=
  [("a", JDict [("b", JDict [("c", JDict [("id", JInt 7)])])])].

(** The dict the [except] handler of [run] returns. *)
Definition failure_result (e : exn) : pydict :=
  [ ("success", JBool false);
    ("error", JStr (str_exn e));
    ("message", JStr "转换失败") ].

(** The first extracted record that is not a dict, if there is one. *)
Definition first_non_dict (cases : list json) : option json :=
  find (fun v => negb (is_dict v)) cases.

(** The steps that get a line: dicts and strings. *)
Definition emits_line (p : nat * json) : bool :=
  is_dict (snd p) || is_str (snd p).

(** ** The rest of the tool *)

(** The keys each column of [_prepare_test_case_row] reads, in the order
    the row literal reads them, and the value it falls back to. *)
Definition column_sources : list (string * list string) :=
  [ ("用例ID", ["id"; "case_id"]);
    ("用例名称", ["title"; "name"]);
    ("模块", ["module"; "category"]);
    ("优先级", ["priority"]);
    ("前置条件", ["preconditions"]);
    ("测试步骤", ["steps"]);
    ("预期结果", ["expected"]);
    ("测试数据", ["test_data"]);
    ("状态", ["status"]);
    ("创建人", ["author"]);
    ("创建时间", ["created_date"]);
    ("备注", ["remarks"]) ].

Definition column_fallback (label : string) : json :=
  if String.eqb label "状态" then JStr not_executed else JStr "".

(** [d[outer][inner]] where both exist and [d[outer]] is a dict. *)
Definition lookup_in (outer inner : string) (d : pydict) : option json :=
  match dict_lookup outer d with
  | Some (JDict o) => dict_lookup inner o
  | _ => None
  end.

(** [__init__] *)
Definition tool_name : string := "JSON转Excel转换器".
Definition tool_description : string := "将JSON格式的测试用例转换为Excel文件".
Definition tool_version : string := "1.0.0".

(** [get_tool_config] *)
Definition get_tool_config : pydict :=
  [ ("name", JStr tool_name);
    ("description", JStr tool_description);
    ("parameters",
     JDict
       [ ("type", JStr "object");
         ("properties",
          JDict
            [ ("json_input",
               JDict [ ("type", JStr "string");
                       ("description", JStr "JSON格式的测试用例数据") ]);
              ("output_format",
               JDict [ ("type", JStr "string");
                       ("enum", JList [JStr "excel"; JStr "csv"]);
                       ("default", JStr "excel");
                       ("description", JStr "输出格式") ]);
              ("include_styling",
               JDict [ ("type", JStr "boolean");
                       ("default", JBool true);
                       ("description", JStr "是否包含Excel样式") ]);
              ("filename",
               JDict [ ("type", JStr "string");
                       ("default", JStr "test_cases");
                       ("description", JStr "输出文件名（不含扩展名）") ]) ]);
         ("required", JList [JStr "json_input"]) ]) ].

(** The default the configuration declares for a parameter. *)
Definition declared_default (param : string) : option json :=
  match lookup_in "parameters" "properties" get_tool_config with
  | Some (JDict properties) => lookup_in param "default" properties
  | _ => None
  end.

(** A call of [run] that spells out every declared default. *)
Definition declared_kwargs : kwargs :=
  {| kw_output_format :=
       match declared_default "output_format" with
       | Some (JStr s) => Some s
       | _ => None
       end;
     kw_include_styling :=
       match declared_default "include_styling" with
       | Some (JBool b) => Some b
       | _ => None
       end;
     kw_filename :=
       match declared_default "filename" with
       | Some (JStr s) => Some s
       | _ => None
       end |}.

(** The collaborators with one of them exchanged. *)
Definition with_excel_writer (C : Collaborators)
    (write : list row -> bool -> result string)
    (preview : list row -> result string) : Collaborators :=
  {| os_path_exists := @os_path_exists C;
     json_load_file := @json_load_file C;
     json_loads := @json_loads C;
     excel_base64 := write;
     excel_preview := preview;
     to_csv := @to_csv C;
     csv_preview := @csv_preview C;
     now_isoformat := @now_isoformat C |}.

Definition with_csv_writer (C : Collaborators)
    (write : list row -> result string)
    (preview : list row -> result string) : Collaborators :=
  {| os_path_exists := @os_path_exists C;
     json_load_file := @json_load_file C;
     json_loads := @json_loads C;
     excel_base64 := @excel_base64 C;
     excel_preview := @excel_preview C;
     to_csv := write;
     csv_preview := preview;
     now_isoformat := @now_isoformat C |}.

Definition with_file_loader (C : Collaborators) (load : string -> result json)
    : Collaborators :=
  {| os_path_exists := @os_path_exists C;
     json_load_file := load;
     json_loads := @json_loads C;
     excel_base64 := @excel_base64 C;
     excel_preview := @excel_preview C;
     to_csv := @to_csv C;
     csv_preview := @csv_preview C;
     now_isoformat := @now_isoformat C |}.

(** A working directory that holds one file, named [[]], whose content is
    not JSON; texts are parsed as in [Demo]. *)
Definition directory_with_broken_file : Collaborators :=
  {| os_path_exists := fun path => String.eqb path "[]";
     json_load_file := fun _ => Raise (JSONDecodeError "Expecting value");
     json_loads := Demo.loads;
     excel_base64 := @excel_base64 Demo.collaborators;
     excel_preview := @excel_preview Demo.collaborators;
     to_csv := @to_csv Demo.collaborators;
     csv_preview := @csv_preview Demo.collaborators;
     now_isoformat := @now_isoformat Demo.collaborators |}.

(** The extension [run] appends to the file name for an output format. *)
Definition extension_of (output_format : string) : string :=
  if String.eqb output_format "excel" then ".xlsx" else ".csv".

(** [len(s)] counts code points: the bytes of the UTF-8 text that are not
    continuation bytes. *)
Definition is_continuation_byte (c : ascii) : bool :=
  let n := nat_of_ascii c in
  Nat.leb 128 n && Nat.ltb n 192.

Fixpoint py_len (s : string) : nat :=
  match s with
  | EmptyString => 0
  | String c rest => (if is_continuation_byte c then 0 else 1) + py_len rest
  end.

(** [bool(v)] *)
Definition py_truthy (v : json) : bool :=
  match v with
  | JNull => false
  | JBool b => b
  | JInt z => negb (Z.eqb z 0)
  | JFloat (S754_zero _) => false
  | JFloat _ => true
  | JStr EmptyString => false
  | JStr (String _ _) => true
  | JList [] => false
  | JList (_ :: _) => true
  | JDict [] => false
  | JDict (_ :: _) => true
  end.

Section Styling.
Context {B : Builtins}.

(** One turn of the inner loop of the column widths in
    [_apply_excel_styling]:
    [if cell.value: max_length = max(max_length, len(str(cell.value)))]. *)
Definition widen (max_length : nat) (value : json) : nat :=
  if py_truthy value then Nat.max max_length (py_len (py_str value))
  else max_length.

(** [max_length] after the cells of one column, header included. *)
Definition column_max_length (values : list json) : nat :=
  fold_left widen values 0.

(** [adjusted_width = min(max_length + 2, 50)] *)
Definition adjusted_width (values : list json) : nat :=
  Nat.min (column_max_length values + 2) 50.

End Styling.

(** What [_generate_preview] reads of a [DataFrame]: [len(df)],
    [df.columns] and the text of [dict(df.iloc[i])]. *)
Record frame : Type := {
  frame_len : nat;
  frame_columns : list string;
  frame_row_text : nat -> string
}.

(** [preview_lines] of [_generate_preview]. *)
Definition preview_header (df : frame) : list string :=
  [ "数据概览:";
    "总行数: " ++ str_of_nat (frame_len df);
    "总列数: " ++ str_of_nat (List.length (frame_columns df));
    newline ++ "字段列表:" ].

Definition preview_columns (df : frame) : list string :=
  map (fun col => "  - " ++ col) (frame_columns df).

Definition preview_rows (df : frame) : list string :=
  if Nat.ltb 0 (frame_len df)
  then (newline ++ "前3行数据:")
       :: map (fun i => "行 " ++ str_of_nat (i + 1) ++ ": " ++ frame_row_text df i)
            (seq 0 (Nat.min 3 (frame_len df)))
  else [].

Definition preview_lines (df : frame) : list string :=
  List.app (preview_header df) (List.app (preview_columns df) (preview_rows df)).

(** [_generate_preview] *)
Definition _generate_preview (df : frame) : string :=
  String.concat newline (preview_lines df).

(** A text between double quotes. *)
Definition quoted (s : string) : string :=
  String Demo.dquote (s ++ String Demo.dquote EmptyString).

(** [{"items":[{"id":"TC1","title":"Login","steps":["open","submit"]}]}] *)
Definition items_text : string :=
  "{" ++ quoted "items" ++ ":[{"
      ++ quoted "id" ++ ":" ++ quoted "TC1" ++ ","
      ++ quoted "title" ++ ":" ++ quoted "Login" ++ ","
      ++ quoted "steps" ++ ":[" ++ quoted "open" ++ "," ++ quoted "submit"
      ++ "]}]}".

(** [{"name": "Suite A", "data": [{"id": 1}]}] *)
Definition doc_named_wrapper : pydict :=
  [("name", JStr "Suite A"); ("data", JList [JDict [("id", JInt 1)]])].

(** [{"data": [{"id": 1}, {"title": "t"}]}] *)
Definition doc_data_wrapper : pydict :=
  [("data", JList [JDict [("id", JInt 1)]; JDict [("title", JStr "t")]])].

(** ** The token counters of [locuststudy/ai agent.py] *)
Module TokenStats.

(** The exceptions the task can meet. *)
Inductive error : Type :=
| NameError
| KeyError
| AttributeError
| TypeError
| OverflowError
| DecodeError.

Inductive outcome (A : Type) : Type :=
| Done (a : A)
| Raised (e : error).
Arguments Done {A} a.
Arguments Raised {A} e.

(** Python's float addition, and [float(n)] for an int, which is [None]
    where Python raises [OverflowError]. *)
Class Floats : Type := {
  float_add : spec_float -> spec_float -> spec_float;
  float_of_int : Z -> option spec_float
}.

(** The value of a [bool] or an [int] as an integer. *)
Definition int_like (v : json) : option Z :=
  match v with
  | JBool true => Some 1%Z
  | JBool false => Some 0%Z
  | JInt z => Some z
  | _ => None
  end.

Section Task.
Context {F : Floats}.

(** The value of a number as a float: [None] when [v] is not a number. *)
Definition float_like (v : json) : option (outcome spec_float) :=
  match v with
  | JFloat f => Some (Done f)
  | _ =>
      match int_like v with
      | Some z =>
          match float_of_int z with
          | Some f => Some (Done f)
          | None => Some (Raised OverflowError)
          end
      | None => None
      end
  end.

(** [a + b] *)
Definition py_add (a b : json) : outcome json :=
  match a, b with
  | JStr s, JStr t => Done (JStr (s ++ t))
  | JList xs, JList ys => Done (JList (List.app xs ys))
  | _, _ =>
      match int_like a, int_like b with
      | Some x, Some y => Done (JInt (x + y))
      | _, _ =>
          match float_like a, float_like b with
          | Some (Done x), Some (Done y) => Done (JFloat (float_add x y))
          | Some (Raised e), Some _ => Raised e
          | Some _, Some (Raised e) => Raised e
          | _, _ => Raised TypeError
          end
      end
  end.

(** [on_locust_init]: the global [token_stats] is bound to fresh counters. *)
Definition on_locust_init : option pydict :=
  Some [ ("total_input_tokens", JInt 0);
         ("total_output_tokens", JInt 0);
         ("request_count", JInt 0) ].

(** [token_stats[key] += x]: the dict after the statement and the
    exception it raised, if any. *)
Definition iadd (token_stats : pydict) (key : string) (x : json)
    : pydict * option error :=
  match dict_lookup key token_stats with
  | None => (token_stats, Some KeyError)
  | Some total =>
      match py_add total x with
      | Done v => (Demo.dict_set key v token_stats, None)
      | Raised e => (token_stats, Some e)
      end
  end.

(** What the task reads of the response to its POST. *)
Record response : Type := {
  status_code : Z;
  (** [response.json()] *)
  response_json : outcome json
}.

(** [test_with_custom_metrics]: the global [token_stats] after the task,
    [None] while it is unbound, and the exception that ended the task, if
    any. *)
Definition test_with_custom_metrics (token_stats : option pydict)
    (r : response) : option pydict * option error :=
  if Z.eqb (status_code r) 200 then
    match response_json r with
    | Raised e => (token_stats, Some e)
    | Done (JDict data) =>
        let input_tokens := dict_get data "input_tokens" (JInt 0) in
        let output_tokens := dict_get data "output_tokens" (JInt 0) in
        match token_stats with
        | None => (None, Some NameError)
        | Some stats =>
            match iadd stats "total_input_tokens" input_tokens with
            | (stats1, Some e) => (Some stats1, Some e)
            | (stats1, None) =>
                match iadd stats1 "total_output_tokens" output_tokens with
                | (stats2, Some e) => (Some stats2, Some e)
                | (stats2, None) =>
                    let (stats3, raised) := iadd stats2 "request_count" (JInt 1) in
                    (Some stats3, raised)
                end
            end
        end
    | Done _ => (token_stats, Some AttributeError)
    end
  else (token_stats, None).

(** The task run once per response, one after the other; a task that
    raises leaves the counters as they are at that point. *)
Definition run_tasks (token_stats : option pydict) (responses : list response)
    : option pydict :=
  fold_left (fun stats r => fst (test_with_custom_metrics stats r))
    responses token_stats.

End Task.

(** The counters as a dict. *)
Definition counters (input output count : Z) : pydict :=
  [ ("total_input_tokens", JInt input);
    ("total_output_tokens", JInt output);
    ("request_count", JInt count) ].

(** The integer a field of a response adds: 0 when it is missing. *)
Definition tokens (field : string) (data : pydict) : option Z :=
  match dict_lookup field data with
  | Some v => int_like v
  | None => Some 0%Z
  end.

Definition is_ok (r : response) : bool := Z.eqb (status_code r) 200.

(** A response with status 200 whose body is an object with integer
    counts, or a response with another status. *)
Definition countable (r : response) : bool :=
  if is_ok r then
    match response_json r with
    | Done (JDict data) =>
        match tokens "input_tokens" data, tokens "output_tokens" data with
        | Some _, Some _ => true
        | _, _ => false
        end
    | _ => false
    end
  else true.

(** The integer a countable response adds to a counter. *)
Definition added (field : string) (r : response) : Z :=
  if is_ok r then
    match response_json r with
    | Done (JDict data) =>
        match tokens field data with
        | Some z => z
        | None => 0%Z
        end
    | _ => 0%Z
    end
  else 0%Z.

Definition total (field : string) (responses : list response) : Z :=
  fold_right (fun r acc => (added field r + acc)%Z) 0%Z responses.

(** IEEE addition is a parameter; this instance only closes examples. *)
Definition no_floats : Floats :=
  {| float_add := fun x _ => x; float_of_int := fun _ => None |}.

End TokenStats.

(** * Properties *)

(** ** Induction over nested values *)

Lemma json_nested_ind (P : json -> Prop) :
  P JNull ->
  (forall b, P (JBool b)) ->
  (forall z, P (JInt z)) ->
  (forall f, P (JFloat f)) ->
  (forall s, P (JStr s)) ->
  (forall xs, (forall x, In x xs -> P x) -> P (JList xs)) ->
  (forall kvs, (forall k v, In (k, v) kvs -> P v) -> P (JDict kvs)) ->
  forall d, P d.
Proof.
  intros Hnull Hbool Hint Hfloat Hstr Hlist Hdict.
  fix IH 1.
  intros [ | b | z | f | s | xs | kvs ];
    [ exact Hnull | apply Hbool | apply Hint | apply Hfloat | apply Hstr | | ].
  - apply Hlist.
    induction xs as [ | x xs IHxs ]; intros y Hy.
    + destruct Hy.
    + destruct Hy as [ <- | Hy ]; [ apply IH | apply IHxs, Hy ].
  - apply Hdict.
    induction kvs as [ | [k v] kvs IHkvs ]; intros k' v' Hin.
    + destruct Hin.
    + destruct Hin as [ Heq | Hin ].
      * apply (f_equal snd) in Heq. simpl in Heq. rewrite <- Heq. apply IH.
      * apply (IHkvs _ _ Hin).
Qed.

(** ** Dict lookups *)

Lemma dict_contains_keys (k : string) (d : pydict) :
  dict_contains k d = true <-> In k (map fst d).
Proof.
  unfold dict_contains.
  rewrite existsb_exists, in_map_iff.
  split.
  - intros [kv [Hin Heq]]. apply String.eqb_eq in Heq. exists kv; auto.
  - intros [kv [Heq Hin]]. exists kv. split; [ exact Hin | ].
    apply String.eqb_eq, Heq.
Qed.

Lemma dict_lookup_contains (k : string) (d : pydict) :
  dict_contains k d = true <-> exists v, dict_lookup k d = Some v.
Proof.
  induction d as [ | [k' v'] d IH ]; simpl.
  - split; [ discriminate | intros [v Hv]; discriminate ].
  - destruct (String.eqb k' k) eqn:E; simpl.
    + split; [ intros _; exists v'; reflexivity | reflexivity ].
    + exact IH.
Qed.

Lemma dict_lookup_in (k : string) (v : json) (d : pydict) :
  dict_lookup k d = Some v -> In (k, v) d.
Proof.
  induction d as [ | [k' v'] d IH ]; simpl; [ discriminate | ].
  destruct (String.eqb k' k) eqn:E.
  - intros [= ->]. apply String.eqb_eq in E. subst. left; reflexivity.
  - intros H. right. apply IH, H.
Qed.

Lemma is_test_case_keys (obj : pydict) :
  _is_test_case obj = true <->
  exists k, In k test_case_indicators /\ In k (map fst obj).
Proof.
  unfold _is_test_case. rewrite existsb_exists.
  split; intros [k [Hk Hin]]; exists k; split; auto;
    apply dict_contains_keys; exact Hin.
Qed.

(** ** Deep search *)

Lemma record_is_test_case (kvs : pydict) :
  is_record (JDict kvs) -> _is_test_case kvs = true.
Proof. intros [kvs' [[= <-] H]]. exact H. Qed.

Lemma deep_search_sound_complete (d t : json) :
  In t (_deep_search_test_cases d) <-> reaches d t /\ is_record t.
Proof.
  revert t. induction d as [ | b | z | f | s | xs IH | kvs IH ]
    using json_nested_ind; intros t; simpl.
  1-5: (split; [ intros [] | intros [Hr [kvs [Ht _]]]; inversion Hr; subst;
          [ discriminate | match goal with H : child _ _ |- _ => inversion H end ] ]).
  - rewrite in_flat_map. split.
    + intros [x [Hx Ht]]. apply (IH x Hx) in Ht as [Hr Hrec].
      split; [ | exact Hrec ].
      eapply reaches_below; [ apply child_element, Hx | exact Hr ].
    + intros [Hr Hrec]. inversion Hr as [ | ? c ? Hc Hct ]; subst.
      * destruct Hrec as [kvs [Heq _]]; discriminate.
      * inversion Hc; subst. exists c. split; [ assumption | ].
        apply IH; auto.
  - destruct (_is_test_case kvs) eqn:E.
    + split.
      * intros [ <- | [] ]. split; [ apply reaches_here | exists kvs; auto ].
      * intros [Hr _]. inversion Hr as [ | ? c ? Hc Hct ]; subst.
        -- left; reflexivity.
        -- inversion Hc; subst. congruence.
    + rewrite in_flat_map. split.
      * intros [[k v] [Hkv Ht]]. simpl in Ht.
        apply (IH k v Hkv) in Ht as [Hr Hrec].
        split; [ | exact Hrec ].
        eapply reaches_below; [ apply (child_value kvs k v E Hkv) | exact Hr ].
      * intros [Hr Hrec]. inversion Hr as [ | ? c ? Hc Hct ]; subst.
        -- apply record_is_test_case in Hrec. congruence.
        -- inversion Hc; subst. exists (k, c). split; [ assumption | ].
           simpl. eapply IH; eauto.
Qed.

(** C2.  [_is_test_case] holds of an object exactly when one of ["id"],
    ["case_id"], ["title"], ["name"], ["steps"] is among its keys; the deep
    search returns exactly the records reachable through wrappers that are
    not records and through sequence elements, at any depth, so a record
    with an ["id"] key under three such wrappers is found; and on a record
    it returns that record alone, without looking at its children. *)
Theorem deep_search_collects_reachable_records :
  (forall obj : pydict,
      _is_test_case obj = true <->
      exists k, In k test_case_indicators /\ In k (map fst obj))
  /\ (forall d t : json,
        In t (_deep_search_test_cases d) <-> reaches d t /\ is_record t)
  /\ (forall (w1 w2 w3 inner : pydict) (k1 k2 k3 : string),
        _is_test_case w1 = false ->
        _is_test_case w2 = false ->
        _is_test_case w3 = false ->
        In (k1, JDict w2) w1 ->
        In (k2, JDict w3) w2 ->
        In (k3, JDict inner) w3 ->
        In "id" (map fst inner) ->
        In (JDict inner) (_deep_search_test_cases (JDict w1)))
  /\ (forall obj : pydict,
        _is_test_case obj = true ->
        _deep_search_test_cases (JDict obj) = [JDict obj]).
Proof.
  split; [ exact is_test_case_keys | ].
  split; [ exact deep_search_sound_complete | ].
  split.
  - intros w1 w2 w3 inner k1 k2 k3 N1 N2 N3 I1 I2 I3 Hid.
    apply deep_search_sound_complete. split.
    + eapply reaches_below; [ exact (child_value w1 k1 _ N1 I1) | ].
      eapply reaches_below; [ exact (child_value w2 k2 _ N2 I2) | ].
      eapply reaches_below; [ exact (child_value w3 k3 _ N3 I3) | ].
      apply reaches_here.
    + exists inner. split; [ reflexivity | ].
      apply is_test_case_keys. exists "id". split; [ left; reflexivity | exact Hid ].
  - intros obj Hobj. simpl. rewrite Hobj. reflexivity.
Qed.

Lemma deep_search_three_deep :
  In (JDict [("id", JInt 7)]) (_deep_search_test_cases (JDict doc_three_deep)).
Proof.
  apply (proj1 (proj2 (proj2 deep_search_collects_reachable_records))
           doc_three_deep
           [("b", JDict [("c", JDict [("id", JInt 7)])])]
           [("c", JDict [("id", JInt 7)])]
           [("id", JInt 7)] "a" "b" "c");
    try reflexivity; simpl; auto.
Defined.

(** ** Keyed extraction *)

Lemma scan_first_bound (data : pydict) (before after : list string)
    (key : string) (xs : list json) :
  (forall k, In k before -> bound_to_list data k = false) ->
  dict_lookup key data = Some (JList xs) ->
  scan_possible_keys (before ++ key :: after)%list data = xs.
Proof.
  intros Hbefore Hkey.
  induction before as [ | b before IH ]; simpl.
  - rewrite Hkey. reflexivity.
  - assert (Hb : bound_to_list data b = false) by (apply Hbefore; left; reflexivity).
    unfold bound_to_list in Hb.
    destruct (dict_lookup b data) as [ [ | | | | | ys | ] | ]; try discriminate;
      apply IH; intros k Hk; apply Hbefore; right; exact Hk.
Qed.

Lemma extract_scanned_non_empty (data : pydict) (x : json) (xs : list json) :
  scan_possible_keys possible_keys data = x :: xs ->
  _extract_test_cases (JDict data) = x :: xs.
Proof. intros H. unfold _extract_test_cases. rewrite H. reflexivity. Qed.

Lemma extract_scanned_empty (data : pydict) :
  scan_possible_keys possible_keys data = [] ->
  _extract_test_cases (JDict data) = _deep_search_test_cases (JDict data).
Proof. intros H. unfold _extract_test_cases. rewrite H. reflexivity. Qed.

Lemma extraction_branch_result (data : json) :
  match extraction_branch data with
  | BareSequence => exists xs, data = JList xs /\ _extract_test_cases data = xs
  | KeyedSequence =>
      exists kvs, data = JDict kvs
                  /\ _extract_test_cases data = scan_possible_keys possible_keys kvs
  | DeepSearch => _extract_test_cases data = _deep_search_test_cases data
  | NoContainer => _extract_test_cases data = []
  end.
Proof.
  destruct data as [ | b | z | f | s | xs | kvs ]; try reflexivity.
  - exists xs. split; reflexivity.
  - unfold extraction_branch, _extract_test_cases.
    destruct (scan_possible_keys possible_keys kvs) as [ | x xs ] eqn:E; simpl.
    + reflexivity.
    + exists kvs. split; [ reflexivity | symmetry; exact E ].
Qed.

(** When ["test_cases"] is bound to a sequence that is not empty,
    extraction returns exactly that sequence, whatever the other keys, and
    the deep search is not the branch taken.  When it is bound to the empty
    sequence the test [not test_cases] holds and the deep search is the
    branch taken. *)
Lemma test_cases_key_by_emptiness (data : pydict) (xs : list json) :
  dict_lookup "test_cases" data = Some (JList xs) ->
  (xs <> [] ->
   _extract_test_cases (JDict data) = xs
   /\ extraction_branch (JDict data) = KeyedSequence)
  /\ (xs = [] ->
      _extract_test_cases (JDict data) = _deep_search_test_cases (JDict data)
      /\ extraction_branch (JDict data) = DeepSearch).
Proof.
  intros Hkey.
  assert (Hscan : scan_possible_keys possible_keys data = xs).
  { apply (scan_first_bound data [] ["cases"; "testCases"; "testcases"; "items"]
             "test_cases" xs); [ intros k [] | exact Hkey ]. }
  split.
  - intros Hne. destruct xs as [ | x xs ]; [ contradiction | ].
    split; [ apply extract_scanned_non_empty, Hscan | ].
    unfold extraction_branch. rewrite Hscan. reflexivity.
  - intros ->. split; [ apply extract_scanned_empty, Hscan | ].
    unfold extraction_branch. rewrite Hscan. reflexivity.
Qed.

Lemma test_cases_with_siblings_example :
  _extract_test_cases (JDict doc_test_cases_and_siblings)
  = [JDict [("title", JStr "Login")]]
  /\ extraction_branch (JDict doc_test_cases_and_siblings) = KeyedSequence.
Proof.
  apply (proj1 (test_cases_key_by_emptiness doc_test_cases_and_siblings
                  [JDict [("title", JStr "Login")]] eq_refl)).
  discriminate.
Qed.

(** C1.  The code at [{"name": "Suite A", "test_cases": []}]: the key
    ["test_cases"] is bound to the empty sequence and is the one the loop
    stops at, yet the deep search is the branch taken, and extraction
    returns the document itself as the one record instead of the empty
    sequence. *)
Theorem empty_test_cases_runs_deep_search :
  dict_lookup "test_cases" doc_empty_test_cases = Some (JList [])
  /\ scan_possible_keys possible_keys doc_empty_test_cases = []
  /\ extraction_branch (JDict doc_empty_test_cases) = DeepSearch
  /\ _extract_test_cases (JDict doc_empty_test_cases)
     = [JDict doc_empty_test_cases]
  /\ _extract_test_cases (JDict doc_empty_test_cases) <> [].
Proof.
  repeat split; try reflexivity. discriminate.
Qed.

(** C6.  A document that is a sequence is returned as it is: every element
    is a candidate record and the count is the length of the sequence. *)
Theorem bare_sequence_extracts_every_element (xs : list json) :
  _extract_test_cases (JList xs) = xs
  /\ List.length (_extract_test_cases (JList xs)) = List.length xs
  /\ (forall x, In x xs -> In x (_extract_test_cases (JList xs))).
Proof.
  repeat split; auto.
Qed.

(** C5 as the specification states it fails: [{"test_cases": [1],
    "cases": [2], "items": [3]}] binds both ["cases"] and ["items"] to a
    sequence, and the sequence selected is the one of ["test_cases"]. *)
Lemma cases_yield_to_test_cases :
  dict_lookup "cases" doc_three_keys = Some (JList [JInt 2])
  /\ dict_lookup "items" doc_three_keys = Some (JList [JInt 3])
  /\ scan_possible_keys possible_keys doc_three_keys = [JInt 1]
  /\ _extract_test_cases (JDict doc_three_keys) = [JInt 1]
  /\ _extract_test_cases (JDict doc_three_keys) <> [JInt 2].
Proof.
  repeat split; try reflexivity. discriminate.
Qed.

(** C5, amended.  The loop takes the sequence of the first key, in the
    order ["test_cases"], ["cases"], ["testCases"], ["testcases"],
    ["items"], that is present and bound to a sequence; so when both
    ["cases"] and ["items"] are bound to sequences and ["test_cases"] is
    not, the loop selects the ["cases"] sequence.  A selected sequence that
    is not empty is what extraction returns. *)
Theorem keyed_extraction_follows_declared_order (data : pydict) :
  (forall (before after : list string) (key : string) (xs : list json),
      possible_keys = (before ++ key :: after)%list ->
      (forall k, In k before -> bound_to_list data k = false) ->
      dict_lookup key data = Some (JList xs) ->
      scan_possible_keys possible_keys data = xs
      /\ (xs <> [] -> _extract_test_cases (JDict data) = xs))
  /\ (forall cs its : list json,
        bound_to_list data "test_cases" = false ->
        dict_lookup "cases" data = Some (JList cs) ->
        dict_lookup "items" data = Some (JList its) ->
        scan_possible_keys possible_keys data = cs
        /\ (cs <> [] -> _extract_test_cases (JDict data) = cs)).
Proof.
  assert (General :
    forall before after key xs,
      possible_keys = (before ++ key :: after)%list ->
      (forall k, In k before -> bound_to_list data k = false) ->
      dict_lookup key data = Some (JList xs) ->
      scan_possible_keys possible_keys data = xs
      /\ (xs <> [] -> _extract_test_cases (JDict data) = xs)).
  { intros before after key xs Hkeys Hbefore Hkey.
    assert (Hscan : scan_possible_keys possible_keys data = xs)
      by (rewrite Hkeys; apply scan_first_bound; assumption).
    split; [ exact Hscan | ].
    intros Hne. destruct xs as [ | x xs ]; [ contradiction | ].
    apply extract_scanned_non_empty, Hscan. }
  split; [ exact General | ].
  intros cs its Htc Hcases _.
  apply (General ["test_cases"] ["testCases"; "testcases"; "items"] "cases" cs);
    [ reflexivity | | exact Hcases ].
  intros k [ <- | [] ]. exact Htc.
Qed.

Lemma cases_before_items_example :
  _extract_test_cases (JDict doc_cases_items) = [JDict [("id", JInt 1)]].
Proof.
  apply (proj2 (keyed_extraction_follows_declared_order doc_cases_items)
           [JDict [("id", JInt 1)]] [JDict [("id", JInt 2)]]);
    try reflexivity.
  discriminate.
Defined.

(** ** Row projection *)

Lemma first_present_one (tc : pydict) (f : string) (fallback : json) :
  first_present tc [f] fallback = dict_get tc f fallback.
Proof. unfold dict_get. simpl. destruct (dict_lookup f tc); reflexivity. Qed.

Lemma first_present_two (tc : pydict) (f g : string) (fallback : json) :
  first_present tc [f; g] fallback = dict_get tc f (dict_get tc g fallback).
Proof.
  unfold dict_get. simpl.
  destruct (dict_lookup f tc); [ reflexivity | ].
  destruct (dict_lookup g tc); reflexivity.
Qed.

Lemma first_present_agrees (tc : pydict) (fields : list string) (fallback : json) :
  (forall f v, In f fields -> dict_lookup f tc = Some v -> is_empty_text v = false) ->
  first_present tc fields fallback = first_non_empty tc fields fallback.
Proof.
  induction fields as [ | f fields IH ]; intros Hne; simpl; [ reflexivity | ].
  destruct (dict_lookup f tc) as [ v | ] eqn:E.
  - rewrite (Hne f v (or_introl eq_refl) E). reflexivity.
  - apply IH. intros g v Hg. apply Hne. right; exact Hg.
Qed.

Lemma columns_distinct : NoDup columns.
Proof.
  replace columns with (nodup string_dec columns) by (vm_compute; reflexivity).
  apply NoDup_nodup.
Qed.

Lemma prepare_row_labels {B : Builtins} (tc : pydict) (r : row) :
  _prepare_test_case_row (JDict tc) = Ok r -> map fst r = columns.
Proof. intros [= <-]. reflexivity. Qed.

(** C7 as the specification states it fails: in [{"id": "",
    "case_id": "TC9", "status": ""}] the first non-empty of ["id"] and
    ["case_id"] is ["TC9"], but the row's ID is the empty ["id"], and its
    status is the empty string. *)
Lemma empty_fields_are_not_skipped :
  exists r : row,
    @_prepare_test_case_row Demo.builtins (JDict record_empty_id) = Ok r
    /\ column "用例ID" r = Some (JStr "")
    /\ first_non_empty record_empty_id ["id"; "case_id"] (JStr "") = JStr "TC9"
    /\ column "状态" r = Some (JStr "")
    /\ first_non_empty record_empty_id ["status"] (JStr not_executed)
       = JStr not_executed.
Proof.
  eexists. split; [ reflexivity | ]. repeat split; reflexivity.
Qed.

(** C7, amended.  Each column with alternatives takes the first
    alternative whose key is present in the record, whatever its value: ID
    from ["id"] then ["case_id"], Name from ["title"] then ["name"], Module
    from ["module"] then ["category"], each falling back to the empty
    string; Status is the ["status"] value when the key is present and the
    label [not_executed], which is not empty, when it is missing.  Where no
    present alternative is empty this is the first non-empty one. *)
Theorem row_takes_first_present_alternative {B : Builtins} (tc : pydict) :
  exists r : row,
    _prepare_test_case_row (JDict tc) = Ok r
    /\ column "用例ID" r = Some (first_present tc ["id"; "case_id"] (JStr ""))
    /\ column "用例名称" r = Some (first_present tc ["title"; "name"] (JStr ""))
    /\ column "模块" r = Some (first_present tc ["module"; "category"] (JStr ""))
    /\ column "状态" r = Some (first_present tc ["status"] (JStr not_executed))
    /\ (dict_lookup "status" tc = None ->
        column "状态" r = Some (JStr not_executed))
    /\ not_executed <> ""
    /\ (forall (fields : list string) (fallback : json),
          (forall f v, In f fields -> dict_lookup f tc = Some v ->
                       is_empty_text v = false) ->
          first_present tc fields fallback = first_non_empty tc fields fallback).
Proof.
  eexists. split; [ reflexivity | ].
  rewrite !first_present_two, first_present_one.
  repeat split; try reflexivity.
  - intros Hmissing. unfold column. simpl. unfold dict_get. rewrite Hmissing.
    reflexivity.
  - discriminate.
  - intros fields fallback. apply first_present_agrees.
Qed.

Lemma missing_status_example :
  exists r : row,
    @_prepare_test_case_row Demo.builtins (JDict [("id", JStr "TC1")]) = Ok r
    /\ column "用例ID" r = Some (JStr "TC1")
    /\ column "状态" r = Some (JStr not_executed).
Proof.
  destruct (@row_takes_first_present_alternative Demo.builtins [("id", JStr "TC1")])
    as [r [Hr [Hid [_ [_ [_ [Hstatus _]]]]]]].
  exists r. split; [ exact Hr | ]. split; [ exact Hid | ].
  apply Hstatus. reflexivity.
Defined.

(** C8.  The row of a dict-shaped record has the twelve labels of
    [columns], all different, in that order, whatever fields the record
    has; so all rows prepared for one export have the same labels in the
    same order. *)
Theorem rows_share_the_twelve_columns {B : Builtins} :
  (forall tc : pydict,
      exists r : row,
        _prepare_test_case_row (JDict tc) = Ok r /\ map fst r = columns)
  /\ List.length columns = 12
  /\ NoDup columns
  /\ (forall (test_cases : list json) (rows : list row),
        prepare_rows test_cases = Ok rows ->
        List.length rows = List.length test_cases
        /\ Forall (fun r => map fst r = columns) rows).
Proof.
  split; [ intros tc; eexists; split; reflexivity | ].
  split; [ reflexivity | ].
  split; [ exact columns_distinct | ].
  induction test_cases as [ | case rest IH ]; intros rows; simpl.
  - intros [= <-]. split; [ reflexivity | constructor ].
  - destruct case as [ | b | z | f | s | xs | tc ]; try discriminate.
    unfold bind at 1. simpl.
    destruct (prepare_rows rest) as [ rs | e ]; simpl; [ | discriminate ].
    intros [= <-]. destruct (IH rs eq_refl) as [Hlen Hall].
    split; [ simpl; rewrite Hlen; reflexivity | ].
    constructor; [ reflexivity | exact Hall ].
Qed.

Lemma two_rows_same_columns :
  exists rows : list row,
    @prepare_rows Demo.builtins
      [JDict [("id", JStr "TC1")]; JDict [("title", JStr "Login")]] = Ok rows
    /\ Forall (fun r => map fst r = columns) rows.
Proof.
  eexists. split; [ reflexivity | ].
  apply (proj2 (proj2 (proj2 (@rows_share_the_twelve_columns Demo.builtins)))
           [JDict [("id", JStr "TC1")]; JDict [("title", JStr "Login")]]).
  reflexivity.
Defined.

(** ** Steps formatting *)

Lemma step_lines_enumerate {B : Builtins} (xs : list json) :
  forall i, step_lines i xs = map step_line (filter emits_line (enumerate i xs)).
Proof.
  induction xs as [ | x xs IH ]; intros i; simpl; [ reflexivity | ].
  destruct x as [ | b | z | f | s | ys | d ]; simpl; rewrite IH; reflexivity.
Qed.

Lemma filter_enumerate_all (xs : list json) :
  Forall (fun x => is_dict x || is_str x = true) xs ->
  forall i, filter emits_line (enumerate i xs) = enumerate i xs.
Proof.
  induction 1 as [ | x xs Hx _ IH ]; intros i; simpl; [ reflexivity | ].
  unfold emits_line at 1. simpl. rewrite Hx, IH. reflexivity.
Qed.

(** C4 as the specification states it fails: the sequence
    ["a", 7, "b"] has three elements and is formatted as two lines, so not
    every element becomes a line. *)
Lemma steps_element_without_line :
  List.length [JStr "a"; JInt 7; JStr "b"] = 3
  /\ List.length (@step_lines Demo.builtins 1 [JStr "a"; JInt 7; JStr "b"]) = 2
  /\ @_format_steps Demo.builtins (JList [JStr "a"; JInt 7; JStr "b"])
     <> String.concat newline
          (map (@step_line Demo.builtins)
             (enumerate 1 [JStr "a"; JInt 7; JStr "b"])).
Proof.
  split; [ reflexivity | ]. split; [ reflexivity | ].
  vm_compute. discriminate.
Qed.

(** C4, amended.  In a sequence, each element that is a dict or a string
    becomes a line numbered by its position in the sequence, counted from
    1, and an element of any other type becomes no line; the lines are
    joined by newlines.  A dict contributes its ["action"] value or, when
    that key is missing, its ["step"] value, and a string contributes
    itself.  So when every element is a dict or a string, each element
    becomes a line.  A bare string is returned unchanged and any other
    shape gives the empty string.  The steps ["open page"],
    ["click login"] give [1. open page] and [2. click login] on two lines,
    also as the Steps column of a record. *)
Theorem format_steps_by_shape {B : Builtins} :
  (forall xs : list json,
      _format_steps (JList xs)
      = String.concat newline
          (map step_line (filter emits_line (enumerate 1 xs))))
  /\ (forall xs : list json,
        Forall (fun x => is_dict x || is_str x = true) xs ->
        _format_steps (JList xs)
        = String.concat newline (map step_line (enumerate 1 xs)))
  /\ (forall (i : nat) (x : json),
        step_line (i, x) = str_of_nat i ++ ". " ++ py_str (step_text x))
  /\ (forall d : pydict,
        step_text (JDict d) = first_present d ["action"; "step"] (JStr ""))
  /\ (forall s : string, step_text (JStr s) = JStr s /\ py_str (JStr s) = s)
  /\ (forall s : string, _format_steps (JStr s) = s)
  /\ (forall v : json, is_str v = false -> (forall xs, v <> JList xs) ->
                       _format_steps v = "")
  /\ _format_steps (JList [JStr "open page"; JStr "click login"])
     = "1. open page" ++ newline ++ "2. click login"
  /\ (forall tc : pydict,
        dict_lookup "steps" tc = Some (JList [JStr "open page"; JStr "click login"]) ->
        exists r : row,
          _prepare_test_case_row (JDict tc) = Ok r
          /\ column "测试步骤" r
             = Some (JStr ("1. open page" ++ newline ++ "2. click login"))).
Proof.
  split.
  { intros xs. simpl. rewrite step_lines_enumerate. reflexivity. }
  split.
  { intros xs Hxs. simpl.
    rewrite step_lines_enumerate, filter_enumerate_all by exact Hxs.
    reflexivity. }
  split; [ reflexivity | ].
  split.
  { intros d. simpl.
    destruct (dict_lookup "action" d); [ reflexivity | ].
    destruct (dict_lookup "step" d); reflexivity. }
  split; [ intros s; split; reflexivity | ].
  split; [ reflexivity | ].
  split.
  { intros v Hstr Hlist.
    destruct v as [ | b | z | f | s | xs | d ]; try reflexivity.
    - discriminate.
    - exfalso. apply (Hlist xs). reflexivity. }
  split; [ reflexivity | ].
  intros tc Hsteps. eexists. split; [ reflexivity | ].
  unfold column. simpl. unfold dict_get. rewrite Hsteps. reflexivity.
Qed.

Lemma two_steps_example :
  @_format_steps Demo.builtins
    (JList [JDict [("action", JStr "open page")]; JStr "click login"])
  = "1. open page" ++ newline ++ "2. click login".
Proof.
  rewrite (proj1 (proj2 (@format_steps_by_shape Demo.builtins))).
  - reflexivity.
  - repeat constructor.
Defined.

(** C10.  The lines of a sequence are those of its dicts and strings, each
    numbered by its position in the whole sequence counted from 1: an
    element of another type gets no line but takes a number, so
    ["a", 7, "b"] gives [1. a] and [3. b]. *)
Theorem format_steps_skips_but_counts {B : Builtins} :
  (forall xs : list json,
      _format_steps (JList xs)
      = String.concat newline
          (map step_line (filter emits_line (enumerate 1 xs))))
  /\ (forall (i : nat) (x : json) (rest : list json),
        is_dict x = false -> is_str x = false ->
        step_lines i (x :: rest) = step_lines (S i) rest)
  /\ (forall (i : nat) (x : json) (rest : list json),
        is_dict x || is_str x = true ->
        step_lines i (x :: rest) = step_line (i, x) :: step_lines (S i) rest)
  /\ _format_steps (JList [JStr "a"; JInt 7; JStr "b"])
     = "1. a" ++ newline ++ "3. b".
Proof.
  split.
  { intros xs. simpl. rewrite step_lines_enumerate. reflexivity. }
  split.
  { intros i x rest Hd Hs.
    destruct x; try reflexivity; discriminate. }
  split.
  { intros i x rest Hx. rewrite !step_lines_enumerate. simpl.
    unfold emits_line at 1. simpl. rewrite Hx. reflexivity. }
  reflexivity.
Qed.

Lemma skipped_step_example :
  @step_lines Demo.builtins 1 [JBool true; JStr "b"]
  = @step_lines Demo.builtins 2 [JStr "b"].
Proof.
  apply (proj1 (proj2 (@format_steps_skips_but_counts Demo.builtins)));
    reflexivity.
Defined.

(** ** The entry point *)

Lemma prepare_row_dict_only {B : Builtins} (v : json) :
  is_dict v = false -> _prepare_test_case_row v = Raise (no_get v).
Proof. destruct v; try reflexivity; discriminate. Qed.

Lemma first_non_dict_exists (cases : list json) (bad : json) :
  In bad cases -> is_dict bad = false ->
  exists b, first_non_dict cases = Some b /\ is_dict b = false /\ In b cases.
Proof.
  induction cases as [ | case rest IH ]; intros Hin Hbad; [ destruct Hin | ].
  unfold first_non_dict. simpl.
  destruct (is_dict case) eqn:E; simpl.
  - destruct Hin as [ -> | Hin ]; [ congruence | ].
    destruct (IH Hin Hbad) as [b [Hb [Hd Hi]]].
    exists b. repeat split; auto.
  - exists case. repeat split; auto.
Qed.

Lemma prepare_rows_first_non_dict {B : Builtins} (cases : list json) (b : json) :
  first_non_dict cases = Some b -> prepare_rows cases = Raise (no_get b).
Proof.
  induction cases as [ | case rest IH ]; [ discriminate | ].
  unfold first_non_dict. simpl.
  destruct case as [ | c | z | f | s | xs | tc ]; simpl;
    try (intros [= <-]; reflexivity).
  intros Hfind. unfold first_non_dict in IH. rewrite (IH Hfind). reflexivity.
Qed.

Lemma prepare_rows_all_dicts {B : Builtins} (cases : list json) :
  first_non_dict cases = None ->
  exists rows, prepare_rows cases = Ok rows
               /\ List.length rows = List.length cases.
Proof.
  induction cases as [ | case rest IH ]; [ exists []; split; reflexivity | ].
  unfold first_non_dict. simpl.
  destruct case as [ | c | z | f | s | xs | tc ]; simpl; try discriminate.
  intros Hfind. destruct (IH Hfind) as [rows [Hrows Hlen]].
  rewrite Hrows. simpl. eexists. split; [ reflexivity | ].
  simpl. rewrite Hlen. reflexivity.
Qed.

Lemma run_failure {B : Builtins} {C : Collaborators}
    (json_input : string) (kw : kwargs) (e : exn) :
  run_try json_input kw = Raise e -> run json_input kw = failure_result e.
Proof. intros H. unfold run. rewrite H. reflexivity. Qed.

Lemma run_try_parse_raises {B : Builtins} {C : Collaborators}
    (json_input : string) (kw : kwargs) (e : exn) :
  _parse_json_input json_input = Raise e -> run_try json_input kw = Raise e.
Proof. intros H. unfold run_try. rewrite H. reflexivity. Qed.

Lemma run_try_projection_raises {B : Builtins} {C : Collaborators}
    (json_input : string) (kw : kwargs) (data : json) (e : exn) :
  _parse_json_input json_input = Ok data ->
  prepare_rows (_extract_test_cases data) = Raise e ->
  run_try json_input kw = Raise e.
Proof.
  intros Hparse Hrows. unfold run_try. rewrite Hparse. simpl.
  unfold _generate_excel, _generate_csv. rewrite Hrows. simpl.
  destruct (String.eqb _ "excel"); reflexivity.
Qed.

Lemma run_try_success_flag {B : Builtins} {C : Collaborators}
    (json_input : string) (kw : kwargs) (r : pydict) :
  run_try json_input kw = Ok r ->
  dict_lookup "success" r = Some (JBool true)
  /\ exists data, dict_lookup "data" r = Some (JDict data).
Proof.
  unfold run_try.
  destruct (_parse_json_input json_input) as [ data | e ]; simpl; [ | discriminate ].
  match goal with
  | |- context [ bind ?m _ ] => destruct m as [ res | e ]; simpl; [ | discriminate ]
  end.
  intros [= <-]. split; [ reflexivity | ]. exists res. reflexivity.
Qed.

(** C3.  Whatever the input, [run] returns a dict: the success dict of the
    [try] block, or, as soon as parsing, projection or a writer raises, the
    failure dict with [success] false, the exception's text under [error]
    and no [data].  In particular a text that names no file and that the
    JSON parser rejects gives the failure dict. *)
Theorem run_reports_every_exception {B : Builtins} {C : Collaborators}
    (json_input : string) (kw : kwargs) :
  (forall e : exn,
      _parse_json_input json_input = Raise e ->
      run json_input kw = failure_result e)
  /\ (forall (data : json) (e : exn),
        _parse_json_input json_input = Ok data ->
        prepare_rows (_extract_test_cases data) = Raise e ->
        run json_input kw = failure_result e)
  /\ (forall e : exn,
        run_try json_input kw = Raise e ->
        run json_input kw = failure_result e)
  /\ (forall e : exn,
        os_path_exists json_input = false ->
        json_loads json_input = Raise e ->
        run json_input kw = failure_result e)
  /\ ((exists r, run_try json_input kw = Ok r /\ run json_input kw = r
                  /\ dict_lookup "success" r = Some (JBool true))
      \/ (exists e, run_try json_input kw = Raise e
                    /\ run json_input kw = failure_result e))
  /\ (forall e : exn,
        dict_lookup "success" (failure_result e) = Some (JBool false)
        /\ dict_lookup "error" (failure_result e) = Some (JStr (str_exn e))
        /\ dict_lookup "data" (failure_result e) = None).
Proof.
  split.
  { intros e He. apply run_failure, run_try_parse_raises, He. }
  split.
  { intros data e Hparse Hrows.
    eapply run_failure, run_try_projection_raises; eassumption. }
  split; [ intros e; apply run_failure | ].
  split.
  { intros e Hpath Hloads. apply run_failure, run_try_parse_raises.
    unfold _parse_json_input. rewrite Hpath. exact Hloads. }
  split.
  { destruct (run_try json_input kw) as [ r | e ] eqn:E.
    - left. exists r. split; [ reflexivity | ].
      split; [ unfold run; rewrite E; reflexivity | ].
      apply (run_try_success_flag json_input kw r E).
    - right. exists e. split; [ reflexivity | ]. apply run_failure, E. }
  intros e. repeat split; reflexivity.
Qed.

Lemma invalid_json_example :
  @run Demo.builtins Demo.collaborators "{not json" no_kwargs
  = failure_result (JSONDecodeError "Expecting value").
Proof.
  apply (proj1 (proj2 (proj2 (proj2
           (@run_reports_every_exception Demo.builtins Demo.collaborators
              "{not json" no_kwargs)))));
    reflexivity.
Defined.

Lemma writer_failure_example :
  @run Demo.builtins Demo.failing_writer "[]" no_kwargs
  = failure_result (LibraryError "cannot be used in worksheets").
Proof. apply run_failure. reflexivity. Qed.

(** C9.  When an extracted record is not a dict, projecting it raises
    [AttributeError]; preparing the rows raises at the first such record,
    and [run] returns the failure dict, with no [data], whatever the output
    format and however many of the records are dicts. *)
Theorem non_dict_record_fails_the_run {B : Builtins} {C : Collaborators}
    (json_input : string) (kw : kwargs) (data bad : json) :
  _parse_json_input json_input = Ok data ->
  In bad (_extract_test_cases data) ->
  is_dict bad = false ->
  _prepare_test_case_row bad = Raise (no_get bad)
  /\ exists b : json,
       first_non_dict (_extract_test_cases data) = Some b
       /\ prepare_rows (_extract_test_cases data) = Raise (no_get b)
       /\ run json_input kw = failure_result (no_get b)
       /\ dict_lookup "success" (run json_input kw) = Some (JBool false)
       /\ dict_lookup "data" (run json_input kw) = None.
Proof.
  intros Hparse Hin Hbad.
  split; [ apply prepare_row_dict_only, Hbad | ].
  destruct (first_non_dict_exists _ _ Hin Hbad) as [b [Hb _]].
  exists b. split; [ exact Hb | ].
  pose proof (prepare_rows_first_non_dict _ _ Hb) as Hrows.
  split; [ exact Hrows | ].
  assert (Hrun : run json_input kw = failure_result (no_get b))
    by (eapply run_failure, run_try_projection_raises; eassumption).
  rewrite Hrun. repeat split; reflexivity.
Qed.

Lemma scalar_in_sequence_example :
  @run Demo.builtins Demo.collaborators "[{}, 5, {}]" csv_kwargs
  = failure_result (AttributeError "'int' object has no attribute 'get'").
Proof.
  destruct (@non_dict_record_fails_the_run Demo.builtins Demo.collaborators
              "[{}, 5, {}]" csv_kwargs
              (JList [JDict []; JInt 5; JDict []]) (JInt 5))
    as [_ [b [Hb [_ [Hrun _]]]]].
  - reflexivity.
  - simpl. auto.
  - reflexivity.
  - injection Hb as <-. exact Hrun.
Defined.

(** * Further properties of the tool *)

(** ** Expected results and steps *)

Lemma expected_lines_enumerate {B : Builtins} (xs : list json) :
  forall i,
    expected_lines i xs
    = map (fun p => numbered (fst p) (snd p)) (enumerate (S i) xs).
Proof.
  induction xs as [ | x xs IH ]; intros i; simpl; [ reflexivity | ].
  rewrite Nat.add_1_r, IH. reflexivity.
Qed.

Lemma expected_lines_nth {B : Builtins} (xs : list json) :
  forall i k x,
    nth_error xs k = Some x ->
    nth_error (expected_lines i xs) k = Some (numbered (i + k + 1) x).
Proof.
  induction xs as [ | y xs IH ]; intros i k x Hk.
  - destruct k; discriminate.
  - destruct k as [ | k ]; simpl in *.
    + injection Hk as ->. rewrite Nat.add_0_r. reflexivity.
    + rewrite (IH (S i) k x Hk).
      replace (S i + k + 1) with (i + S k + 1) by lia. reflexivity.
Qed.

(** X1.  [_format_expected] gives every element of a sequence a line,
    whatever its type: there are as many lines as elements and the element
    at position [k], counted from 0, is on the line numbered [k + 1]. *)
Theorem expected_numbers_every_element {B : Builtins} (xs : list json) :
  _format_expected (JList xs)
  = String.concat newline
      (map (fun p => numbered (fst p) (snd p)) (enumerate 1 xs))
  /\ List.length (expected_lines 0 xs) = List.length xs
  /\ (forall (k : nat) (x : json),
        nth_error xs k = Some x ->
        nth_error (expected_lines 0 xs) k = Some (numbered (k + 1) x)).
Proof.
  split; [ simpl; rewrite expected_lines_enumerate; reflexivity | ].
  split.
  - rewrite expected_lines_enumerate, length_map.
    generalize 1. induction xs as [ | x xs IH ]; intros n; simpl;
      [ reflexivity | rewrite IH; reflexivity ].
  - intros k x Hk. apply (expected_lines_nth xs 0 k x Hk).
Qed.

Lemma expected_third_line_example :
  nth_error (@expected_lines Demo.builtins 0 [JStr "a"; JInt 7; JStr "b"]) 2
  = Some "3. b".
Proof.
  apply (proj2 (proj2 (@expected_numbers_every_element Demo.builtins
                         [JStr "a"; JInt 7; JStr "b"])) 2 (JStr "b")).
  reflexivity.
Defined.

Lemma step_lines_of_strings {B : Builtins} (xs : list json) :
  Forall (fun x => is_str x = true) xs ->
  forall i,
    step_lines i xs = map (fun p => numbered (fst p) (snd p)) (enumerate i xs).
Proof.
  induction 1 as [ | x xs Hx _ IH ]; intros i; simpl; [ reflexivity | ].
  destruct x; try discriminate. simpl. rewrite IH. reflexivity.
Qed.

(** X2.  On a sequence of strings the steps and the expected results are
    formatted alike. *)
Theorem steps_and_expected_agree_on_strings {B : Builtins} (xs : list json) :
  Forall (fun x => is_str x = true) xs ->
  _format_steps (JList xs) = _format_expected (JList xs).
Proof.
  intros Hxs. simpl.
  rewrite (step_lines_of_strings xs Hxs), expected_lines_enumerate.
  reflexivity.
Qed.

Lemma steps_and_expected_agree_example :
  @_format_steps Demo.builtins (JList [JStr "open"; JStr "submit"])
  = @_format_expected Demo.builtins (JList [JStr "open"; JStr "submit"]).
Proof.
  apply (@steps_and_expected_agree_on_strings Demo.builtins).
  repeat constructor.
Defined.

(** ** Columns and their source fields *)

Lemma dict_get_same (tc1 tc2 : pydict) (k : string) (default : json) :
  dict_lookup k tc1 = dict_lookup k tc2 ->
  dict_get tc1 k default = dict_get tc2 k default.
Proof. unfold dict_get. intros ->. reflexivity. Qed.

Lemma dict_get_missing (tc : pydict) (k : string) (default : json) :
  dict_lookup k tc = None -> dict_get tc k default = default.
Proof. unfold dict_get. intros ->. reflexivity. Qed.

(** X3.  Each column of a row depends only on the fields it is derived
    from: two records that agree on those fields have the same value in
    that column, whatever else they hold. *)
Theorem column_depends_on_its_sources {B : Builtins}
    (tc1 tc2 : pydict) (r1 r2 : row) (label : string) (keys : list string) :
  In (label, keys) column_sources ->
  (forall k, In k keys -> dict_lookup k tc1 = dict_lookup k tc2) ->
  _prepare_test_case_row (JDict tc1) = Ok r1 ->
  _prepare_test_case_row (JDict tc2) = Ok r2 ->
  column label r1 = column label r2.
Proof.
  intros Hsrc Hsame [= <-] [= <-].
  unfold column_sources in Hsrc. simpl in Hsrc.
  repeat (destruct Hsrc as [ [= <- <-] | Hsrc ];
          [ unfold column; simpl;
            repeat match goal with
                   | |- context [ dict_get tc1 ?k ?d ] =>
                       rewrite (dict_get_same tc1 tc2 k d)
                         by (apply Hsame; simpl; auto)
                   end;
            reflexivity | ]).
  destruct Hsrc.
Qed.

Lemma name_column_ignores_other_fields :
  exists r1 r2 : row,
    @_prepare_test_case_row Demo.builtins
      (JDict [("title", JStr "Login"); ("id", JStr "A")]) = Ok r1
    /\ @_prepare_test_case_row Demo.builtins
         (JDict [("id", JStr "B"); ("title", JStr "Login"); ("status", JStr "ok")])
       = Ok r2
    /\ column "用例名称" r1 = column "用例名称" r2.
Proof.
  eexists. eexists. split; [ reflexivity | ]. split; [ reflexivity | ].
  apply (@column_depends_on_its_sources Demo.builtins
           [("title", JStr "Login"); ("id", JStr "A")]
           [("id", JStr "B"); ("title", JStr "Login"); ("status", JStr "ok")]
           _ _ "用例名称" ["title"; "name"]).
  - simpl. auto.
  - intros k [ <- | [ <- | [] ] ]; reflexivity.
  - reflexivity.
  - reflexivity.
Defined.

(** X4.  A column whose source fields are all missing from the record
    holds its fallback: the label [not_executed] for the status, the empty
    string for every other column, the three formatted ones included. *)
Theorem missing_sources_give_fallback {B : Builtins}
    (tc : pydict) (r : row) (label : string) (keys : list string) :
  In (label, keys) column_sources ->
  (forall k, In k keys -> dict_lookup k tc = None) ->
  _prepare_test_case_row (JDict tc) = Ok r ->
  column label r = Some (column_fallback label).
Proof.
  intros Hsrc Hmissing [= <-].
  unfold column_sources in Hsrc. simpl in Hsrc.
  repeat (destruct Hsrc as [ [= <- <-] | Hsrc ];
          [ unfold column; simpl;
            repeat match goal with
                   | |- context [ dict_get tc ?k ?d ] =>
                       rewrite (dict_get_missing tc k d)
                         by (apply Hmissing; simpl; auto)
                   end;
            reflexivity | ]).
  destruct Hsrc.
Qed.

Lemma steps_missing_example :
  exists r : row,
    @_prepare_test_case_row Demo.builtins (JDict [("id", JStr "TC1")]) = Ok r
    /\ column "测试步骤" r = Some (JStr "").
Proof.
  eexists. split; [ reflexivity | ].
  apply (@missing_sources_give_fallback Demo.builtins
           [("id", JStr "TC1")] _ "测试步骤" ["steps"]).
  - simpl. auto 10.
  - intros k [ <- | [] ]. reflexivity.
  - reflexivity.
Defined.

(** ** Preparing the rows of an export *)

Lemma first_non_dict_none (cases : list json) :
  forallb is_dict cases = true <-> first_non_dict cases = None.
Proof.
  unfold first_non_dict.
  induction cases as [ | case rest IH ]; simpl; [ split; reflexivity | ].
  destruct (is_dict case); simpl; [ exact IH | split; discriminate ].
Qed.

Lemma prepare_rows_pointwise {B : Builtins} (cases : list json) :
  forall rows,
    prepare_rows cases = Ok rows ->
    Forall2 (fun case r => _prepare_test_case_row case = Ok r) cases rows.
Proof.
  induction cases as [ | case rest IH ]; intros rows; simpl.
  - intros [= <-]. constructor.
  - destruct (_prepare_test_case_row case) as [ r | e ] eqn:Er; simpl;
      [ | discriminate ].
    destruct (prepare_rows rest) as [ rs | e ]; simpl; [ | discriminate ].
    intros [= <-]. constructor; [ exact Er | apply IH; reflexivity ].
Qed.

(** X5.  Preparing the rows is all or nothing.  When every record is a
    dict there is one row per record, in the order of the records; when
    one is not, no rows are produced and the exception is the one of the
    first record that is not a dict. *)
Theorem prepare_rows_all_or_nothing {B : Builtins} (cases : list json) :
  (forallb is_dict cases = true ->
   exists rows : list row,
     prepare_rows cases = Ok rows
     /\ Forall2 (fun case r => _prepare_test_case_row case = Ok r) cases rows)
  /\ (forallb is_dict cases = false ->
      exists bad : json,
        first_non_dict cases = Some bad
        /\ is_dict bad = false
        /\ prepare_rows cases = Raise (no_get bad)).
Proof.
  split.
  - intros Hall. apply first_non_dict_none in Hall.
    destruct (prepare_rows_all_dicts cases Hall) as [rows [Hrows _]].
    exists rows. split; [ exact Hrows | apply prepare_rows_pointwise, Hrows ].
  - intros Hsome.
    destruct (first_non_dict cases) as [ bad | ] eqn:E.
    + exists bad. split; [ reflexivity | ].
      split; [ | apply prepare_rows_first_non_dict, E ].
      unfold first_non_dict in E. apply find_some in E.
      destruct E as [_ E]. destruct (is_dict bad); [ discriminate | reflexivity ].
    + apply first_non_dict_none in E. congruence.
Qed.

Lemma prepare_rows_stops_example :
  @prepare_rows Demo.builtins [JDict []; JStr "x"; JInt 5]
  = Raise (AttributeError "'str' object has no attribute 'get'").
Proof.
  destruct (proj2 (@prepare_rows_all_or_nothing Demo.builtins
                     [JDict []; JStr "x"; JInt 5]) eq_refl)
    as [bad [Hbad [_ Hrows]]].
  injection Hbad as <-. exact Hrows.
Defined.

(** ** Extraction without a recognised key *)

Lemma scan_none_bound (data : pydict) (keys : list string) :
  (forall k, In k keys -> bound_to_list data k = false) ->
  scan_possible_keys keys data = [].
Proof.
  induction keys as [ | key keys IH ]; intros Hnone; simpl; [ reflexivity | ].
  assert (Hkey : bound_to_list data key = false) by (apply Hnone; left; reflexivity).
  unfold bound_to_list in Hkey.
  destruct (dict_lookup key data) as [ [ | | | | | ys | ] | ]; try discriminate;
    apply IH; intros k Hk; apply Hnone; right; exact Hk.
Qed.

Lemma deep_search_returns_dicts (d : json) :
  forallb is_dict (_deep_search_test_cases d) = true.
Proof.
  apply forallb_forall. intros t Ht.
  apply deep_search_sound_complete in Ht as [_ [kvs [-> _]]]. reflexivity.
Qed.

Lemma deep_search_of_records (xs : list json) :
  Forall is_record xs -> _deep_search_test_cases (JList xs) = xs.
Proof.
  induction 1 as [ | x xs [kvs [-> Hrec]] _ IH ]; [ reflexivity | ].
  simpl in *. rewrite Hrec. simpl. rewrite IH. reflexivity.
Qed.

(** X6.  Whenever extraction falls to the deep search, or the document is
    a scalar, every extracted record is a dict, so preparing the rows
    cannot raise: there is one row per extracted record. *)
Theorem deep_search_records_always_project {B : Builtins} (data : json) :
  extraction_branch data = DeepSearch \/ extraction_branch data = NoContainer ->
  forallb is_dict (_extract_test_cases data) = true
  /\ exists rows : list row,
       prepare_rows (_extract_test_cases data) = Ok rows
       /\ List.length rows = List.length (_extract_test_cases data).
Proof.
  intros Hbranch.
  assert (Hdicts : forallb is_dict (_extract_test_cases data) = true).
  { pose proof (extraction_branch_result data) as Hres.
    destruct Hbranch as [ E | E ]; rewrite E in Hres; rewrite Hres.
    - apply deep_search_returns_dicts.
    - reflexivity. }
  split; [ exact Hdicts | ].
  apply prepare_rows_all_dicts, first_non_dict_none, Hdicts.
Qed.

Lemma deep_search_projects_example :
  exists rows : list row,
    @prepare_rows Demo.builtins (_extract_test_cases (JDict doc_three_deep))
    = Ok rows
    /\ List.length rows
       = List.length (_extract_test_cases (JDict doc_three_deep)).
Proof.
  apply (@deep_search_records_always_project Demo.builtins (JDict doc_three_deep)).
  left. reflexivity.
Defined.

(** X7.  A document that has one of the record keys itself and no
    recognised key bound to a sequence is returned whole as the single
    record: nothing nested in it is extracted. *)
Theorem record_document_is_returned_whole (data : pydict) :
  _is_test_case data = true ->
  (forall k, In k possible_keys -> bound_to_list data k = false) ->
  _extract_test_cases (JDict data) = [JDict data]
  /\ (forall t, In t (_extract_test_cases (JDict data)) -> t = JDict data).
Proof.
  intros Hrec Hnone.
  assert (Hext : _extract_test_cases (JDict data) = [JDict data]).
  { rewrite (extract_scanned_empty data (scan_none_bound data _ Hnone)).
    simpl. rewrite Hrec. reflexivity. }
  split; [ exact Hext | ].
  rewrite Hext. intros t [ <- | [] ]. reflexivity.
Qed.

Lemma named_wrapper_example :
  _extract_test_cases (JDict doc_named_wrapper) = [JDict doc_named_wrapper].
Proof.
  apply (record_document_is_returned_whole doc_named_wrapper).
  - reflexivity.
  - intros k Hk. simpl in Hk.
    repeat (destruct Hk as [ <- | Hk ]; [ reflexivity | ]). destruct Hk.
Defined.

(** X8.  In a document that is not a record and has no recognised key
    bound to a sequence, a sequence of records under any key is
    extracted as it is, in order, between what the deep search finds
    under the keys before it and under the keys after it. *)
Theorem records_under_any_key_are_found
    (before after : pydict) (k : string) (xs : list json) :
  _is_test_case (before ++ (k, JList xs) :: after)%list = false ->
  (forall k', In k' possible_keys ->
              bound_to_list (before ++ (k, JList xs) :: after)%list k' = false) ->
  Forall is_record xs ->
  _extract_test_cases (JDict (before ++ (k, JList xs) :: after)%list)
  = (flat_map (fun kv => _deep_search_test_cases (snd kv)) before
     ++ xs
     ++ flat_map (fun kv => _deep_search_test_cases (snd kv)) after)%list.
Proof.
  intros Hnot Hnone Hrecs.
  rewrite (extract_scanned_empty _ (scan_none_bound _ _ Hnone)).
  simpl. rewrite Hnot.
  rewrite flat_map_app. simpl.
  change (flat_map _deep_search_test_cases xs)
    with (_deep_search_test_cases (JList xs)).
  rewrite (deep_search_of_records xs Hrecs). reflexivity.
Qed.

Lemma data_wrapper_example :
  _extract_test_cases (JDict doc_data_wrapper)
  = [JDict [("id", JInt 1)]; JDict [("title", JStr "t")]].
Proof.
  apply (records_under_any_key_are_found [] [] "data"
           [JDict [("id", JInt 1)]; JDict [("title", JStr "t")]]).
  - reflexivity.
  - intros k Hk. simpl in Hk.
    repeat (destruct Hk as [ <- | Hk ]; [ reflexivity | ]). destruct Hk.
  - repeat constructor; eexists; split; reflexivity.
Defined.

(** ** The entry point on success and its options *)

Lemma prepare_rows_length {B : Builtins} (cases : list json) (rows : list row) :
  prepare_rows cases = Ok rows -> List.length rows = List.length cases.
Proof.
  intros H. apply prepare_rows_pointwise in H.
  symmetry. apply (Forall2_length H).
Qed.

(** X9.  When the [try] block of [run] succeeds, the input was parsed,
    every extracted record was projected, and the result reports as
    [test_case_count] the number of rows handed to the writer, which is
    the number of extracted records; it echoes the output format and names
    the file by the requested name followed by [.xlsx] or [.csv]. *)
Theorem run_success_counts_rows {B : Builtins} {C : Collaborators}
    (json_input : string) (kw : kwargs) (r : pydict) :
  run_try json_input kw = Ok r ->
  run json_input kw = r
  /\ dict_lookup "success" r = Some (JBool true)
  /\ dict_lookup "error" r = None
  /\ lookup_in "metadata" "output_format" r
     = Some (JStr (get_default (kw_output_format kw) "excel"))
  /\ lookup_in "data" "filename" r
     = Some (JStr (get_default (kw_filename kw) "test_cases"
                   ++ extension_of (get_default (kw_output_format kw) "excel")))
  /\ exists (data : json) (rows : list row),
       _parse_json_input json_input = Ok data
       /\ prepare_rows (_extract_test_cases data) = Ok rows
       /\ List.length rows = List.length (_extract_test_cases data)
       /\ lookup_in "metadata" "test_case_count" r
          = Some (JInt (Z.of_nat (List.length rows))).
Proof.
  intros Htry.
  split; [ unfold run; rewrite Htry; reflexivity | ].
  unfold run_try in Htry.
  destruct (_parse_json_input json_input) as [ data | e ]; simpl in Htry;
    [ | discriminate ].
  unfold extension_of.
  destruct (String.eqb (get_default (kw_output_format kw) "excel") "excel");
    unfold _generate_excel, _generate_csv in Htry;
    destruct (prepare_rows (_extract_test_cases data)) as [ rows | e ] eqn:Erows;
    simpl in Htry; try discriminate.
  - destruct (excel_base64 rows _) as [ content | e ]; simpl in Htry;
      [ | discriminate ].
    destruct (excel_preview rows) as [ preview | e ]; simpl in Htry;
      [ | discriminate ].
    injection Htry as <-.
    pose proof (prepare_rows_length _ _ Erows) as Hlen.
    repeat split; try reflexivity.
    exists data, rows.
    split; [ reflexivity | ]. split; [ exact Erows | ].
    split; [ exact Hlen | ]. rewrite Hlen. reflexivity.
  - destruct (to_csv rows) as [ content | e ]; simpl in Htry; [ | discriminate ].
    destruct (csv_preview rows) as [ preview | e ]; simpl in Htry;
      [ | discriminate ].
    injection Htry as <-.
    pose proof (prepare_rows_length _ _ Erows) as Hlen.
    repeat split; try reflexivity.
    exists data, rows.
    split; [ reflexivity | ]. split; [ exact Erows | ].
    split; [ exact Hlen | ]. rewrite Hlen. reflexivity.
Qed.

Lemma items_example :
  lookup_in "metadata" "test_case_count"
    (@run Demo.builtins Demo.collaborators items_text csv_kwargs)
  = Some (JInt 1)
  /\ lookup_in "data" "filename"
       (@run Demo.builtins Demo.collaborators items_text csv_kwargs)
     = Some (JStr "test_cases.csv").
Proof.
  destruct (@run_try Demo.builtins Demo.collaborators items_text csv_kwargs)
    as [ r | e ] eqn:Htry; [ | vm_compute in Htry; discriminate ].
  destruct (@run_success_counts_rows Demo.builtins Demo.collaborators
              items_text csv_kwargs r Htry)
    as [Hrun [_ [_ [_ [Hname [data [rows [Hparse [Hrows [Hlen Hcount]]]]]]]]]].
  rewrite Hrun. split; [ | exact Hname ].
  rewrite Hcount, Hlen.
  assert (Hdata : data = JDict [("items",
                    JList [JDict [("id", JStr "TC1"); ("title", JStr "Login");
                                  ("steps", JList [JStr "open"; JStr "submit"])]])])
    by (vm_compute in Hparse; congruence).
  rewrite Hdata. reflexivity.
Defined.

(** X10.  Every output format other than ["excel"] is served as CSV: the
    [data] of the result, and whether the call succeeds, are those of a
    call asking for ["csv"], and the styling flag makes no difference. *)
Theorem other_formats_are_served_as_csv {B : Builtins} {C : Collaborators}
    (json_input fmt : string) (styling styling' : option bool)
    (filename : option string) :
  fmt <> "excel" ->
  let asked := {| kw_output_format := Some fmt; kw_include_styling := styling;
                  kw_filename := filename |} in
  let csv := {| kw_output_format := Some "csv"; kw_include_styling := styling';
                kw_filename := filename |} in
  dict_lookup "data" (run json_input asked) = dict_lookup "data" (run json_input csv)
  /\ dict_lookup "success" (run json_input asked)
     = dict_lookup "success" (run json_input csv)
  /\ dict_lookup "error" (run json_input asked)
     = dict_lookup "error" (run json_input csv).
Proof.
  intros Hfmt asked csv. subst asked csv.
  apply String.eqb_neq in Hfmt.
  unfold run, run_try. simpl. rewrite Hfmt.
  destruct (_parse_json_input json_input) as [ data | e ]; simpl;
    [ | repeat split; reflexivity ].
  destruct (_generate_csv (_extract_test_cases data)
              (get_default filename "test_cases")) as [ res | e ]; simpl;
    repeat split; reflexivity.
Qed.

Lemma xlsx_is_served_as_csv_example :
  lookup_in "data" "file_type"
    (@run Demo.builtins Demo.collaborators "[]"
       {| kw_output_format := Some "xlsx"; kw_include_styling := Some true;
          kw_filename := None |})
  = Some (JStr "text/csv").
Proof.
  unfold lookup_in.
  rewrite (proj1 (@other_formats_are_served_as_csv Demo.builtins
                    Demo.collaborators "[]" "xlsx" (Some true) None None
                    ltac:(discriminate))).
  reflexivity.
Defined.

(** X11.  Each output format consults only its own writer: a call for a
    format other than ["excel"] returns the same whatever the Excel
    writer and preview are, and a call for ["excel"], asked for or by
    default, returns the same whatever the CSV writer and preview are. *)
Theorem each_format_has_its_writer {B : Builtins} {C : Collaborators}
    (json_input : string) (kw : kwargs) :
  (get_default (kw_output_format kw) "excel" <> "excel" ->
   forall write preview,
     @run B (with_excel_writer C write preview) json_input kw
     = @run B C json_input kw)
  /\ (get_default (kw_output_format kw) "excel" = "excel" ->
      forall write preview,
        @run B (with_csv_writer C write preview) json_input kw
        = @run B C json_input kw).
Proof.
  split.
  - intros Hfmt write preview. apply String.eqb_neq in Hfmt.
    unfold run, run_try, _parse_json_input. simpl. rewrite Hfmt. reflexivity.
  - intros Hfmt write preview.
    unfold run, run_try, _parse_json_input. simpl. rewrite Hfmt. simpl.
    reflexivity.
Qed.

Lemma csv_ignores_failing_excel_writer :
  @run Demo.builtins
    (with_excel_writer Demo.collaborators
       (fun _ _ => Raise (LibraryError "no engine"))
       (fun _ => Raise (LibraryError "no engine")))
    "[]" csv_kwargs
  = @run Demo.builtins Demo.collaborators "[]" csv_kwargs.
Proof.
  apply (proj1 (@each_format_has_its_writer Demo.builtins Demo.collaborators
                  "[]" csv_kwargs)).
  discriminate.
Defined.

(** X12.  The path is tried first.  When the input names an existing
    file and loading that file raises, [run] returns the failure of that
    exception, also when the input would parse as a text; and when the
    input names no existing file the file is never opened: the result does
    not depend on the file reader. *)
Theorem input_is_a_path_or_a_text {B : Builtins} {C : Collaborators}
    (json_input : string) (kw : kwargs) :
  (os_path_exists json_input = true ->
   forall e : exn,
     json_load_file json_input = Raise e ->
     run json_input kw = failure_result e)
  /\ (os_path_exists json_input = false ->
      forall load,
        @run B (with_file_loader C load) json_input kw = @run B C json_input kw).
Proof.
  split.
  - intros Hpath e Hload. apply run_failure, run_try_parse_raises.
    unfold _parse_json_input. rewrite Hpath. exact Hload.
  - intros Hpath load.
    unfold run, run_try, _parse_json_input; simpl; rewrite Hpath; reflexivity.
Qed.

Lemma path_first_example :
  @json_loads directory_with_broken_file "[]" = Ok (JList [])
  /\ @run Demo.builtins directory_with_broken_file "[]" csv_kwargs
     = failure_result (JSONDecodeError "Expecting value")
  /\ @run Demo.builtins
       (with_file_loader Demo.collaborators (fun _ => Ok (JList [JInt 1])))
       "[]" csv_kwargs
     = @run Demo.builtins Demo.collaborators "[]" csv_kwargs.
Proof.
  split; [ reflexivity | ]. split.
  - apply (proj1 (@input_is_a_path_or_a_text Demo.builtins
                    directory_with_broken_file "[]" csv_kwargs));
      reflexivity.
  - apply (proj2 (@input_is_a_path_or_a_text Demo.builtins Demo.collaborators
                    "[]" csv_kwargs)).
    reflexivity.
Defined.

(** X13.  The defaults that [get_tool_config] declares for the optional
    parameters are the ones [run] applies: a call that spells out the
    declared defaults returns what a call without them returns, and only
    [json_input] is required and has no default. *)
Theorem declared_defaults_are_applied {B : Builtins} {C : Collaborators}
    (json_input : string) :
  run json_input declared_kwargs = run json_input no_kwargs
  /\ declared_default "output_format" = Some (JStr "excel")
  /\ declared_default "include_styling" = Some (JBool true)
  /\ declared_default "filename" = Some (JStr "test_cases")
  /\ declared_default "json_input" = None
  /\ lookup_in "parameters" "required" get_tool_config
     = Some (JList [JStr "json_input"]).
Proof.
  repeat split; reflexivity.
Qed.

(** ** The preview *)

(** X14.  The preview has its four header entries, one entry per column in
    the order of the columns, and, for a frame that is not empty, a
    heading followed by the first rows only: all of them up to three,
    never more, each numbered from 1.  An empty frame has no row section. *)
Theorem preview_shows_at_most_three_rows (df : frame) :
  List.length (preview_lines df)
  = 4 + List.length (frame_columns df) + List.length (preview_rows df)
  /\ List.length (preview_rows df)
     = (if Nat.eqb (frame_len df) 0 then 0 else 1 + Nat.min 3 (frame_len df))
  /\ List.length (preview_rows df) <= 4
  /\ (forall (k : nat) (col : string),
        nth_error (frame_columns df) k = Some col ->
        nth_error (preview_lines df) (4 + k) = Some ("  - " ++ col))
  /\ (forall i : nat,
        i < Nat.min 3 (frame_len df) ->
        nth_error (preview_lines df) (4 + List.length (frame_columns df) + 1 + i)
        = Some ("行 " ++ str_of_nat (i + 1) ++ ": " ++ frame_row_text df i)).
Proof.
  assert (Hrows : List.length (preview_rows df)
                  = (if Nat.eqb (frame_len df) 0 then 0
                     else 1 + Nat.min 3 (frame_len df))).
  { unfold preview_rows. destruct (frame_len df) as [ | n ]; simpl;
      [ reflexivity | ].
    rewrite length_map, length_seq. reflexivity. }
  split.
  { unfold preview_lines. rewrite !length_app. unfold preview_columns.
    rewrite length_map. reflexivity. }
  split; [ exact Hrows | ].
  split.
  { rewrite Hrows. destruct (Nat.eqb (frame_len df) 0); lia. }
  split.
  { intros k col Hk. unfold preview_lines.
    change (4 + k) with (List.length (preview_header df) + k).
    rewrite nth_error_app2 by lia.
    replace (List.length (preview_header df) + k - List.length (preview_header df))
      with k by lia.
    rewrite nth_error_app1
      by (unfold preview_columns; rewrite length_map;
          apply nth_error_Some; congruence).
    unfold preview_columns. rewrite nth_error_map, Hk. reflexivity. }
  intros i Hi. unfold preview_lines.
  rewrite nth_error_app2 by (simpl; lia).
  rewrite nth_error_app2
    by (unfold preview_columns; rewrite length_map; simpl; lia).
  unfold preview_columns. rewrite length_map.
  replace (4 + List.length (frame_columns df) + 1 + i
           - List.length (preview_header df) - List.length (frame_columns df))
    with (S i) by (simpl; lia).
  unfold preview_rows.
  destruct (frame_len df) as [ | n ] eqn:En; [ simpl in Hi; lia | ].
  change (Nat.ltb 0 (S n)) with true. cbv iota.
  change (nth_error (?x :: ?l) (S i)) with (nth_error l i).
  rewrite nth_error_map.
  rewrite (nth_error_nth' _ 0) by (rewrite length_seq; exact Hi).
  rewrite seq_nth by exact Hi. reflexivity.
Qed.

Lemma preview_second_row_example :
  nth_error
    (preview_lines {| frame_len := 5; frame_columns := ["a"; "b"];
                      frame_row_text := fun i => str_of_nat i |}) 8
  = Some ("行 2: 1").
Proof.
  apply (proj2 (proj2 (proj2 (proj2
           (preview_shows_at_most_three_rows
              {| frame_len := 5; frame_columns := ["a"; "b"];
                 frame_row_text := fun i => str_of_nat i |})))) 1).
  simpl. lia.
Defined.

(** ** Column widths *)

Lemma widen_grows {B : Builtins} (values : list json) :
  forall acc, acc <= fold_left widen values acc.
Proof.
  induction values as [ | v values IH ]; intros acc; simpl; [ lia | ].
  etransitivity; [ | apply IH ].
  unfold widen. destruct (py_truthy v); lia.
Qed.

Lemma widen_covers {B : Builtins} (values : list json) (v : json) :
  In v values -> py_truthy v = true ->
  forall acc, py_len (py_str v) <= fold_left widen values acc.
Proof.
  induction values as [ | w values IH ]; intros Hin Hv acc; [ destruct Hin | ].
  simpl. destruct Hin as [ -> | Hin ].
  - etransitivity; [ | apply widen_grows ].
    unfold widen. rewrite Hv. lia.
  - apply IH; assumption.
Qed.

Lemma widen_attained {B : Builtins} (values : list json) :
  forall acc,
    fold_left widen values acc = acc
    \/ exists v, In v values /\ py_truthy v = true
                 /\ fold_left widen values acc = py_len (py_str v).
Proof.
  induction values as [ | w values IH ]; intros acc; simpl; [ left; reflexivity | ].
  destruct (IH (widen acc w)) as [ Hsame | [v [Hin [Hv Hmax]]] ].
  - rewrite Hsame. unfold widen.
    destruct (py_truthy w) eqn:Ew; [ | left; reflexivity ].
    destruct (Nat.max_spec acc (py_len (py_str w))) as [ [_ Hm] | [_ Hm] ];
      rewrite Hm.
    + right. exists w. repeat split; auto.
    + left. reflexivity.
  - right. exists v. repeat split; auto.
Qed.

(** X15.  The width given to a column is at least 2 and at most 50.  It
    leaves two characters beyond every cell that is not empty, zero or
    false, up to that cap; and it is either 2 or exactly two more than the
    length of one such cell, capped at 50. *)
Theorem adjusted_width_bounds {B : Builtins} (values : list json) :
  2 <= adjusted_width values <= 50
  /\ (forall v, In v values -> py_truthy v = true ->
                Nat.min (py_len (py_str v) + 2) 50 <= adjusted_width values)
  /\ (adjusted_width values = 2
      \/ exists v, In v values /\ py_truthy v = true
                   /\ adjusted_width values = Nat.min (py_len (py_str v) + 2) 50).
Proof.
  unfold adjusted_width, column_max_length.
  split; [ lia | ].
  split.
  - intros v Hin Hv. pose proof (widen_covers values v Hin Hv 0). lia.
  - destruct (widen_attained values 0) as [ Hzero | [v [Hin [Hv Hmax]]] ].
    + left. rewrite Hzero. reflexivity.
    + right. exists v. rewrite Hmax. repeat split; auto.
Qed.

Lemma header_width_example :
  Nat.min (py_len "用例ID" + 2) 50
  <= @adjusted_width Demo.builtins [JStr "用例ID"; JStr "TC1"; JNull; JInt 0].
Proof.
  apply (proj1 (proj2 (@adjusted_width_bounds Demo.builtins
                         [JStr "用例ID"; JStr "TC1"; JNull; JInt 0]))
           (JStr "用例ID")).
  - left. reflexivity.
  - reflexivity.
Defined.

(** ** The token counters *)

Lemma py_add_ints {F : TokenStats.Floats} (a : Z) (v : json) (z : Z) :
  TokenStats.int_like v = Some z ->
  TokenStats.py_add (JInt a) v = TokenStats.Done (JInt (a + z)).
Proof.
  destruct v as [ | [ | ] | y | f | s | xs | d ]; simpl; intros [= <-];
    reflexivity.
Qed.

Lemma py_add_not_a_number {F : TokenStats.Floats} (a : Z) (v : json) :
  TokenStats.int_like v = None ->
  TokenStats.float_like v = None ->
  TokenStats.py_add (JInt a) v = TokenStats.Raised TokenStats.TypeError.
Proof.
  destruct v as [ | [ | ] | y | f | s | xs | d ]; simpl; try discriminate;
    intros _ _; destruct (TokenStats.float_of_int a); reflexivity.
Qed.

Lemma dict_get_tokens (data : pydict) (field : string) (z : Z) :
  TokenStats.tokens field data = Some z ->
  TokenStats.int_like (dict_get data field (JInt 0)) = Some z.
Proof.
  unfold TokenStats.tokens, dict_get.
  destruct (dict_lookup field data); [ auto | intros [= <-]; reflexivity ].
Qed.

Lemma iadd_input {F : TokenStats.Floats} (a b c : Z) (v : json) (z : Z) :
  TokenStats.int_like v = Some z ->
  TokenStats.iadd (TokenStats.counters a b c) "total_input_tokens" v
  = (TokenStats.counters (a + z) b c, None).
Proof.
  intros Hv. unfold TokenStats.iadd.
  replace (dict_lookup "total_input_tokens" (TokenStats.counters a b c))
    with (Some (JInt a)) by reflexivity.
  rewrite (py_add_ints a v z Hv). reflexivity.
Qed.

Lemma iadd_output {F : TokenStats.Floats} (a b c : Z) (v : json) (z : Z) :
  TokenStats.int_like v = Some z ->
  TokenStats.iadd (TokenStats.counters a b c) "total_output_tokens" v
  = (TokenStats.counters a (b + z) c, None).
Proof.
  intros Hv. unfold TokenStats.iadd.
  replace (dict_lookup "total_output_tokens" (TokenStats.counters a b c))
    with (Some (JInt b)) by reflexivity.
  rewrite (py_add_ints b v z Hv). reflexivity.
Qed.

Lemma iadd_count {F : TokenStats.Floats} (a b c : Z) :
  TokenStats.iadd (TokenStats.counters a b c) "request_count" (JInt 1)
  = (TokenStats.counters a b (c + 1), None).
Proof. reflexivity. Qed.

Lemma iadd_output_not_a_number {F : TokenStats.Floats} (a b c : Z) (v : json) :
  TokenStats.int_like v = None ->
  TokenStats.float_like v = None ->
  TokenStats.iadd (TokenStats.counters a b c) "total_output_tokens" v
  = (TokenStats.counters a b c, Some TokenStats.TypeError).
Proof.
  intros Hint Hfloat. unfold TokenStats.iadd.
  replace (dict_lookup "total_output_tokens" (TokenStats.counters a b c))
    with (Some (JInt b)) by reflexivity.
  rewrite (py_add_not_a_number b v Hint Hfloat). reflexivity.
Qed.

Lemma task_counts {F : TokenStats.Floats} (a b c : Z) (r : TokenStats.response) :
  TokenStats.countable r = true ->
  TokenStats.test_with_custom_metrics (Some (TokenStats.counters a b c)) r
  = (Some (TokenStats.counters
             (a + TokenStats.added "input_tokens" r)
             (b + TokenStats.added "output_tokens" r)
             (c + (if TokenStats.is_ok r then 1 else 0))),
     None).
Proof.
  unfold TokenStats.countable, TokenStats.added, TokenStats.test_with_custom_metrics,
    TokenStats.is_ok.
  destruct (Z.eqb (TokenStats.status_code r) 200).
  - destruct (TokenStats.response_json r) as [ [ | | | | | | data ] | e ];
      try discriminate.
    destruct (TokenStats.tokens "input_tokens" data) as [ i | ] eqn:Ei;
      [ | discriminate ].
    destruct (TokenStats.tokens "output_tokens" data) as [ o | ] eqn:Eo;
      [ | discriminate ].
    intros _. cbv zeta.
    rewrite (iadd_input a b c _ i (dict_get_tokens data _ i Ei)).
    rewrite (iadd_output (a + i) b c _ o (dict_get_tokens data _ o Eo)).
    rewrite iadd_count. reflexivity.
  - intros _. rewrite !Z.add_0_r. reflexivity.
Qed.

Lemma run_tasks_counts {F : TokenStats.Floats} (responses : list TokenStats.response) :
  forallb TokenStats.countable responses = true ->
  forall a b c : Z,
    TokenStats.run_tasks (Some (TokenStats.counters a b c)) responses
    = Some (TokenStats.counters
              (a + TokenStats.total "input_tokens" responses)
              (b + TokenStats.total "output_tokens" responses)
              (c + Z.of_nat (List.length (filter TokenStats.is_ok responses)))).
Proof.
  induction responses as [ | r responses IH ]; intros Hall a b c.
  - simpl. rewrite !Z.add_0_r. reflexivity.
  - simpl in Hall. apply andb_prop in Hall as [Hr Hall].
    unfold TokenStats.run_tasks in *. cbn [fold_left].
    rewrite (task_counts a b c r Hr). cbn [fst].
    rewrite (IH Hall).
    f_equal. apply f_equal3.
    + unfold TokenStats.total. cbn [fold_right]. lia.
    + unfold TokenStats.total. cbn [fold_right]. lia.
    + cbn [filter]. destruct (TokenStats.is_ok r); cbn [List.length]; lia.
Qed.

(** X16.  Starting from the counters that [on_locust_init] creates, after
    any sequence of responses of which those with status 200 carry an
    object with integer or missing token counts, [request_count] is the
    number of responses with status 200 and the two totals are the sums
    of their input and output counts, a missing count adding 0; the other
    responses add nothing. *)
Theorem counters_are_sums {F : TokenStats.Floats}
    (responses : list TokenStats.response) :
  forallb TokenStats.countable responses = true ->
  TokenStats.run_tasks TokenStats.on_locust_init responses
  = Some (TokenStats.counters
            (TokenStats.total "input_tokens" responses)
            (TokenStats.total "output_tokens" responses)
            (Z.of_nat (List.length (filter TokenStats.is_ok responses)))).
Proof.
  intros Hall. apply (run_tasks_counts responses Hall 0%Z 0%Z 0%Z).
Qed.

Lemma counters_are_sums_example :
  @TokenStats.run_tasks TokenStats.no_floats TokenStats.on_locust_init
    [ {| TokenStats.status_code := 200;
         TokenStats.response_json :=
           TokenStats.Done (JDict [("input_tokens", JInt 12);
                                   ("output_tokens", JInt 30)]) |};
      {| TokenStats.status_code := 500;
         TokenStats.response_json := TokenStats.Raised TokenStats.DecodeError |};
      {| TokenStats.status_code := 200;
         TokenStats.response_json :=
           TokenStats.Done (JDict [("input_tokens", JInt 5)]) |} ]
  = Some (TokenStats.counters 17 30 2).
Proof.
  apply (@counters_are_sums TokenStats.no_floats). reflexivity.
Defined.

(** X17.  The three counters are not updated together: when a response
    with status 200 has an integer input count and an output count that
    is not a number, the task raises [TypeError] after it has added the
    input count, so the input total has grown while the output total and
    [request_count] have not. *)
Theorem bad_output_count_leaves_partial_update {F : TokenStats.Floats}
    (a b c z : Z) (data : pydict) (bad : json) :
  TokenStats.tokens "input_tokens" data = Some z ->
  dict_lookup "output_tokens" data = Some bad ->
  TokenStats.int_like bad = None ->
  TokenStats.float_like bad = None ->
  TokenStats.test_with_custom_metrics (Some (TokenStats.counters a b c))
    {| TokenStats.status_code := 200;
       TokenStats.response_json := TokenStats.Done (JDict data) |}
  = (Some (TokenStats.counters (a + z) b c), Some TokenStats.TypeError).
Proof.
  intros Hin Hout Hint Hfloat.
  unfold TokenStats.test_with_custom_metrics.
  cbn [TokenStats.status_code TokenStats.response_json].
  change (Z.eqb 200 200) with true. cbv iota zeta.
  rewrite (iadd_input a b c _ z (dict_get_tokens data _ z Hin)).
  replace (dict_get data "output_tokens" (JInt 0)) with bad
    by (unfold dict_get; rewrite Hout; reflexivity).
  rewrite (iadd_output_not_a_number (a + z) b c bad Hint Hfloat).
  reflexivity.
Qed.

Lemma null_output_count_example :
  @TokenStats.test_with_custom_metrics TokenStats.no_floats
    (Some (TokenStats.counters 10 20 3))
    {| TokenStats.status_code := 200;
       TokenStats.response_json :=
         TokenStats.Done (JDict [("input_tokens", JInt 7);
                                 ("output_tokens", JNull)]) |}
  = (Some (TokenStats.counters 17 20 3), Some TokenStats.TypeError).
Proof.
  apply (@bad_output_count_leaves_partial_update TokenStats.no_floats
           10 20 3 7 _ JNull); reflexivity.
Defined.

(** X18.  Until [on_locust_init] has run the counters stay unbound
    whatever the responses are: no task creates them. *)
Theorem counters_need_the_init_event {F : TokenStats.Floats}
    (responses : list TokenStats.response) :
  TokenStats.run_tasks None responses = None
  /\ (forall (r : TokenStats.response) (data : pydict),
        TokenStats.status_code r = 200%Z ->
        TokenStats.response_json r = TokenStats.Done (JDict data) ->
        TokenStats.test_with_custom_metrics None r
        = (None, Some TokenStats.NameError)).
Proof.
  split.
  - unfold TokenStats.run_tasks.
    induction responses as [ | r responses IH ]; simpl; [ reflexivity | ].
    replace (fst (TokenStats.test_with_custom_metrics None r)) with (@None pydict);
      [ exact IH | ].
    unfold TokenStats.test_with_custom_metrics.
    destruct (Z.eqb (TokenStats.status_code r) 200); [ | reflexivity ].
    destruct (TokenStats.response_json r) as [ [ | | | | | | data ] | e ];
      reflexivity.
  - intros r data Hstatus Hjson.
    unfold TokenStats.test_with_custom_metrics. rewrite Hstatus, Hjson.
    reflexivity.
Qed.
